(** * DSA_OccluNet: the spreadsheet utilities [add_study_key.py] and
    [check_files.py]

    A shallow embedding of the two command-line tools and the properties
    their specification states about them.

    - Python [str] values are Rocq strings read as sequences of code points
      below 256 (Latin-1); [strip], [lower] and [endswith] follow CPython on
      that range.
    - A spreadsheet cell is a [pyvalue]; a row is a finite map from column
      name to cell (what [row.get] consults); a DataFrame is its ordered
      column list together with its rows.
    - The dictionary [accession_to_key] is a [gmap string string].
    - [uuid.uuid4] draws from an explicit entropy source, a sequence of
      128-bit numbers indexed by the number of draws so far.
    - [pathlib.Path] is modelled in its POSIX flavour.
    - The file system and the console are an explicit [world] that is
      threaded through [main]. *)

From Stdlib Require Import ZArith NArith Ascii String DecimalString.
From stdpp Require Import gmap strings list fin_maps sorting.

Local Open Scope string_scope.

(** ** Python strings *)

Module Py.

(** [str.isspace] on one character: the code points below 256 that CPython
    treats as white space ([\t\n\v\f\r], the separators 0x1c..0x1f, the
    space, NEL 0x85 and the no-break space 0xa0). *)
Definition isspace (c : ascii) : bool :=
  let n := N_of_ascii c in
  ((9 <=? n) && (n <=? 13) || (28 <=? n) && (n <=? 32)
   || (n =? 133) || (n =? 160))%N.

Fixpoint lstrip (s : string) : string :=
  match s with
  | EmptyString => EmptyString
  | String c s' => if isspace c then lstrip s' else s
  end.

Fixpoint rstrip (s : string) : string :=
  match s with
  | EmptyString => EmptyString
  | String c s' =>
      match rstrip s' with
      | EmptyString => if isspace c then EmptyString else String c EmptyString
      | t => String c t
      end
  end.

(** [s.strip()] *)
Definition strip (s : string) : string := rstrip (lstrip s).

(** One character of [str.lower]: A..Z and the Latin-1 capitals
    0xc0..0xde (the multiplication sign 0xd7 apart) move up by 32. *)
Definition lower_char (c : ascii) : ascii :=
  let n := N_of_ascii c in
  if ((65 <=? n) && (n <=? 90)
      || (192 <=? n) && (n <=? 222) && negb (n =? 215))%N
  then ascii_of_N (n + 32) else c.

(** [s.lower()] *)
Fixpoint lower (s : string) : string :=
  match s with
  | EmptyString => EmptyString
  | String c s' => String (lower_char c) (lower s')
  end.

(** [s.endswith(suffix)] *)
Definition endswith (s suffix : string) : bool :=
  let n := String.length s in
  let m := String.length suffix in
  (m <=? n)%nat && String.eqb (substring (n - m) m s) suffix.

(** [sep.join(parts)] *)
Fixpoint join (sep : string) (parts : list string) : string :=
  match parts with
  | [] => ""
  | [x] => x
  | x :: rest => x ++ sep ++ join sep rest
  end.

(** [not s] for a string: true exactly for the empty string. *)
Definition is_empty (s : string) : bool :=
  match s with EmptyString => true | _ => false end.

(** [str(n)] for an [int]. *)
Definition str_int (z : Z) : string := NilZero.string_of_int (Z.to_int z).

(** [str(b)] for a [bool]. *)
Definition str_bool (b : bool) : string := if b then "True" else "False".

End Py.

(** ** Cell values *)

(** A [float] is either the not-a-number marker or another float, which
    the tools only ever look at through its [str] form. *)
Inductive pyfloat : Type :=
| NaN
| Num (repr : string).

(** The objects a cell read by [pandas.read_excel] can hold, and the
    default [None] of [row.get]. *)
Inductive pyvalue : Type :=
| PyNone
| PyFloat (f : pyfloat)
| PyStr (s : string)
| PyInt (z : Z)
| PyBool (b : bool).

(** [value is None] *)
Definition is_None (value : pyvalue) : bool :=
  match value with PyNone => true | _ => false end.

(** [isinstance(value, float)] *)
Definition isinstance_float (value : pyvalue) : bool :=
  match value with PyFloat _ => true | _ => false end.

(** [pd.isna(value)] on a scalar. *)
Definition isna (value : pyvalue) : bool :=
  match value with
  | PyNone | PyFloat NaN => true
  | _ => false
  end.

(** [str(value)] *)
Definition str (value : pyvalue) : string :=
  match value with
  | PyNone => "None"
  | PyFloat NaN => "nan"
  | PyFloat (Num repr) => repr
  | PyStr s => s
  | PyInt z => Py.str_int z
  | PyBool b => Py.str_bool b
  end.

(** ** Tables *)

(** A row, as [row.get] sees it: the cells of one record by column name. *)
Abbreviation row := (gmap string pyvalue).

(** A [pandas.DataFrame] with the default integer index: the ordered
    column labels and the records in index order. *)
Record DataFrame : Type := mkDataFrame {
  columns : list string;
  rows : list row
}.

(** [row.get(col)]: the cell, or [None] when the row has no such label. *)
Definition row_get (r : row) (col : string) : pyvalue :=
  default PyNone (r !! col).

(** [df.iterrows()]: the index label and the row, in index order. *)
Definition iterrows (rs : list row) : list (nat * row) := imap pair rs.

(** [df.at[idx, col] = value] *)
Definition at_set (rs : list row) (idx : nat) (col : string) (value : pyvalue)
  : list row :=
  alter (fun r : row => <[col := value]> r) idx rs.

(** [df[col] = value] for a scalar: the label is appended when it is new
    and every record receives the value. *)
Definition set_column (df : DataFrame) (col : string) (value : pyvalue)
  : DataFrame :=
  {| columns := if bool_decide (col ∈ columns df) then columns df
                else columns df ++ [col];
     rows := (fun r : row => <[col := value]> r) <$> rows df |}.

(** A table as [to_csv(index=False)] writes it: the header line and one
    line of cells per record. *)
Record csv_table : Type := mkCsv {
  header : list string;
  records : list (list string)
}.

(** ** Paths ([pathlib], POSIX flavour) *)

Module Path.

Record t : Type := mk { root : string; parts : list string }.

(** [s.split("/")] *)
Fixpoint split (s : string) : list string :=
  match s with
  | EmptyString => [EmptyString]
  | String c s' =>
      if Ascii.eqb c "/" then EmptyString :: split s'
      else match split s' with
           | x :: xs => String c x :: xs
           | [] => [String c EmptyString]
           end
  end.

(** The components a string contributes: empty ones and ["."] are
    dropped. *)
Definition segments (s : string) : list string :=
  List.filter (fun x => negb (Py.is_empty x) && negb (String.eqb x ".")) (split s).

(** [posixpath.splitroot]: one leading slash, exactly two, or three and
    more (which count as one). *)
Definition splitroot (s : string) : string * string :=
  match s with
  | String "/" (String "/" (String "/" r)) => ("/", String "/" (String "/" r))
  | String "/" (String "/" r) => ("//", r)
  | String "/" r => ("/", r)
  | _ => ("", s)
  end.

(** [Path(s)] *)
Definition of_string (s : string) : t :=
  let '(rt, rel) := splitroot s in {| root := rt; parts := segments rel |}.

(** [p / s]: an absolute right operand replaces the left one. *)
Definition div (p : t) (s : string) : t :=
  match s with
  | String "/" _ => of_string s
  | _ => {| root := root p; parts := parts p ++ segments s |}
  end.

(** [p.name]: the final component, or the empty string. *)
Definition name (p : t) : string := List.last (parts p) "".

(** [str(p)] *)
Definition to_string (p : t) : string :=
  match root p, parts p with
  | EmptyString, [] => "."
  | rt, ps => rt ++ Py.join "/" ps
  end.

End Path.

Notation "p // s" := (Path.div p s) (at level 40, left associativity).

(** ** The world: file system and console *)

Inductive fsobject : Type :=
| Directory
| Workbook (df : DataFrame)
| CsvFile (table : csv_table)
| Blob.

Record world : Type := mkWorld {
  files : gmap string fsobject;
  stdout : list string
}.

Inductive exn : Type :=
| FileNotFoundError (msg : string)
| KeyError (msg : string)
| ValueError (msg : string).

Inductive result (A : Type) : Type :=
| Return (a : A)
| Raise (e : exn).
Arguments Return {A} a.
Arguments Raise {A} e.

(** Computations that read and change the world and may raise. *)
Definition IO (A : Type) : Type := world → result A * world.

#[global] Instance io_ret : MRet IO :=
  fun A (a : A) w => (Return a, w).

#[global] Instance io_bind : MBind IO :=
  fun A B (k : A → IO B) (m : IO A) w =>
    match m w with
    | (Return a, w') => k a w'
    | (Raise e, w') => (Raise e, w')
    end.

(** [raise e] *)
Definition raise {A} (e : exn) : IO A := fun w => (Raise e, w).

(** [print(line)] *)
Definition print (line : string) : IO unit :=
  fun w => (Return tt, {| files := files w; stdout := stdout w ++ [line] |}).

(** [p.exists()] *)
Definition path_exists (w : world) (p : Path.t) : bool :=
  bool_decide (is_Some (files w !! Path.to_string p)).

Definition exists_ (p : Path.t) : IO bool :=
  fun w => (Return (path_exists w p), w).

(** [pd.read_excel(p)] *)
Definition read_excel (p : Path.t) : IO DataFrame :=
  fun w => match files w !! Path.to_string p with
           | Some (Workbook df) => (Return df, w)
           | Some _ => (Raise (ValueError "Excel file format cannot be determined"), w)
           | None => (Raise (FileNotFoundError (Path.to_string p)), w)
           end.

(** [df.to_excel(p, index=False)] *)
Definition to_excel (df : DataFrame) (p : Path.t) : IO unit :=
  fun w => (Return tt,
            {| files := <[Path.to_string p := Workbook df]> (files w);
               stdout := stdout w |}).

(** [out_df.to_csv(p, index=False)] *)
Definition to_csv (table : csv_table) (p : Path.t) : IO unit :=
  fun w => (Return tt,
            {| files := <[Path.to_string p := CsvFile table]> (files w);
               stdout := stdout w |}).

(** ** Identifiers ([uuid]) *)

Module Uuid.

(** One digit of ['%x']. *)
Definition hex_digit (d : N) : ascii :=
  let c := (d mod 16)%N in
  if (c <? 10)%N then ascii_of_N (48 + c) else ascii_of_N (87 + c).

(** ['%0kx' % n], the [k] low hexadecimal digits of [n]. *)
Fixpoint hex (k : nat) (n : N) : string :=
  match k with
  | O => ""
  | S k' => hex k' (n / 16) ++ String (hex_digit n) ""
  end.

(** [UUID(bytes=b, version=4).int], for the 16 bytes [b] read as a
    big-endian number: the variant and version bits are forced. *)
Definition version4 (random : N) : N :=
  let i := (random mod 2 ^ 128)%N in
  let i := N.ldiff i (N.shiftl 49152 48) in
  let i := N.lor i (N.shiftl 32768 48) in
  let i := N.ldiff i (N.shiftl 61440 64) in
  N.lor i (N.shiftl 4 76).

(** [str(u)] *)
Definition to_string (int : N) : string :=
  let h := hex 32 int in
  substring 0 8 h ++ "-" ++ substring 8 4 h ++ "-" ++ substring 12 4 h
    ++ "-" ++ substring 16 4 h ++ "-" ++ substring 20 12 h.

(** [str(uuid.uuid4())], from the 16 bytes that [os.urandom] returned. *)
Definition uuid4 (random : N) : string := to_string (version4 random).

End Uuid.

(** Loops whose body acts on the world: [for x in l: acc = f(acc, x)]. *)
Fixpoint foldM {A B : Type} (f : B → A → IO B) (b : B) (l : list A) : IO B :=
  match l with
  | [] => mret b
  | x :: l' => b' ← f b x; foldM f b' l'
  end.

(** ** [add_study_key.py] *)

Module AddStudyKey.

Record Args : Type := mkArgs {
  excel : string;
  key_column : string
}.

(** [normalize_value] *)
Definition normalize_value (value : pyvalue) : string :=
  if is_None value || (isinstance_float value && isna value) then ""
  else
    let text := Py.strip (str value) in
    if String.eqb (Py.lower text) "nan" then "" else text.

(** [d.setdefault(k, v)] *)
Definition setdefault (d : gmap string string) (k v : string)
  : gmap string string :=
  match d !! k with
  | Some _ => d
  | None => <[k := v]> d
  end.

(** The body of the first loop of [main]: harvest the key a record
    already has. *)
Definition harvest_step (key_col : string)
    (accession_to_key : gmap string string) (it : nat * row)
  : gmap string string :=
  let row := it.2 in
  let accession := normalize_value (row_get row "Accession") in
  if Py.is_empty accession then accession_to_key
  else
    let existing_key := normalize_value (row_get row key_col) in
    if Py.is_empty existing_key then accession_to_key
    else setdefault accession_to_key accession existing_key.

(** The first loop of [main], from the empty dictionary. *)
Definition harvest (key_col : string) (rs : list row) : gmap string string :=
  foldl (harvest_step key_col) ∅ (iterrows rs).

(** What the second loop of [main] reads and writes: the dictionary, the
    number of identifiers drawn so far, and the cells of [df]. *)
Record fill_state : Type := mkFill {
  accession_to_key : gmap string string;
  draws : nat;
  frame : list row
}.

(** [if accession not in accession_to_key:
       accession_to_key[accession] = str(uuid.uuid4())] *)
Definition fresh_key (urandom : nat → N) (accession : string)
    (st : fill_state) : fill_state :=
  match accession_to_key st !! accession with
  | Some _ => st
  | None =>
      {| accession_to_key :=
           <[accession := Uuid.uuid4 (urandom (draws st))]> (accession_to_key st);
         draws := S (draws st);
         frame := frame st |}
  end.

(** The body of the second loop of [main]. The subscript
    [accession_to_key[accession]] reads an entry that the statement before
    it has made sure exists. *)
Definition fill_step (key_col : string) (urandom : nat → N)
    (st : fill_state) (it : nat * row) : fill_state :=
  let idx := it.1 in
  let row := it.2 in
  let accession := normalize_value (row_get row "Accession") in
  if Py.is_empty accession then st
  else
    let st := fresh_key urandom accession st in
    {| accession_to_key := accession_to_key st;
       draws := draws st;
       frame := at_set (frame st) idx key_col
                  (PyStr (accession_to_key st !!! accession)) |}.

(** [if key_col not in df.columns: df[key_col] = ""] *)
Definition ensure_key_column (key_col : string) (df : DataFrame) : DataFrame :=
  if bool_decide (key_col ∈ columns df) then df
  else set_column df key_col (PyStr "").

(** The two loops of [main] over the frame that has its key column. *)
Definition run_passes (urandom : nat → N) (key_col : string) (df : DataFrame)
  : fill_state :=
  let df := ensure_key_column key_col df in
  let accession_to_key := harvest key_col (rows df) in
  foldl (fill_step key_col urandom)
    {| accession_to_key := accession_to_key; draws := 0; frame := rows df |}
    (iterrows (rows df)).

(** The dataset [main] saves, from the dataset it loaded. *)
Definition assign_keys (urandom : nat → N) (key_col : string) (df : DataFrame)
  : DataFrame :=
  {| columns := columns (ensure_key_column key_col df);
     rows := frame (run_passes urandom key_col df) |}.

(** [main], for parsed arguments and an entropy source. *)
Definition main (args : Args) (urandom : nat → N) : IO Z :=
  let excel_path := Path.of_string (excel args) in
  found ← exists_ excel_path;
  if negb found
  then raise (FileNotFoundError
                ("Excel file not found: " ++ Path.to_string excel_path))
  else
    df ← read_excel excel_path;
    if negb (bool_decide ("Accession" ∈ columns df))
    then raise (KeyError "Missing required column: Accession")
    else
      let key_col := key_column args in
      let df := assign_keys urandom key_col df in
      to_excel df excel_path;;
      print ("Updated " ++ Path.to_string excel_path
             ++ " with column " ++ key_col ++ ".");;
      mret 0%Z.

End AddStudyKey.

(** ** [check_files.py] *)

Module CheckFiles.

Record Args : Type := mkArgs {
  excel : string;
  base_dir : string;
  out_csv : string
}.

(** [normalize_value] *)
Definition normalize_value (value : pyvalue) : string :=
  if is_None value || (isinstance_float value && isna value) then ""
  else
    let text := Py.strip (str value) in
    if String.eqb (Py.lower text) "nan" then "" else text.

(** [candidate_paths] *)
Definition candidate_paths (base_dir : Path.t) (accession ap_value : string)
  : list Path.t :=
  let accession_dir := base_dir // accession in
  if Py.endswith (Py.lower ap_value) ".dcm"
  then [accession_dir // ap_value]
  else [accession_dir // (ap_value ++ ".dcm"); accession_dir // ap_value].

(** [dcm_display_path] *)
Definition dcm_display_path (base_dir : Path.t) (accession ap_value : string)
  : Path.t :=
  let accession_dir := base_dir // accession in
  if Py.endswith (Py.lower ap_value) ".dcm"
  then accession_dir // ap_value
  else accession_dir // (ap_value ++ ".dcm").

Definition columns_to_check : list string :=
  ["AP_1"; "AP_2"; "AP_3"; "Lateral_1"; "Lateral_2"; "Lateral_3"].

Definition required_columns : list string := "Accession" :: columns_to_check.

(** [sorted(names)]: by code points. *)
Definition sorted (names : list string) : list string :=
  merge_sort String.le names.

(** [any(path.exists() for path in paths)] *)
Definition any_exists (paths : list Path.t) : IO bool :=
  fun w => (Return (existsb (path_exists w) paths), w).

(** The counters and the rows collected so far. *)
Record loop_state : Type := mkLoop {
  error_count : nat;
  checked_count : nat;
  out_rows : list (gmap string string)
}.

(** What the inner loop updates for one record. *)
Record row_state : Type := mkRowState {
  errors : nat;
  checked : nat;
  out_row : gmap string string
}.

(** The body of the inner loop: one image column of one record. *)
Definition check_column (base_dir : Path.t) (accession : string) (row : row)
    (st : row_state) (column : string) : IO row_state :=
  let image_value := normalize_value (row_get row column) in
  if Py.is_empty image_value then mret st
  else
    let checked_count := S (checked st) in
    let paths := candidate_paths base_dir accession image_value in
    let display_path := dcm_display_path base_dir accession image_value in
    let display_name := Path.name display_path in
    found ← any_exists paths;
    if negb found
    then
      print ("ERROR: Missing file for Accession " ++ accession
             ++ " (" ++ column ++ "): " ++ display_name);;
      mret {| errors := S (errors st); checked := checked_count;
              out_row := out_row st |}
    else
      mret {| errors := errors st; checked := checked_count;
              out_row := <[column := display_name]> (out_row st) |}.

(** [out_row = {"Accession": accession}] followed by an empty cell for
    every image column. *)
Definition new_out_row (accession : string) : gmap string string :=
  foldl (fun (out_row : gmap string string) col => <[col := ""]> out_row)
    {["Accession" := accession]} columns_to_check.

(** The body of the outer loop: one record. *)
Definition check_row (base_dir : Path.t) (st : loop_state) (it : nat * row)
  : IO loop_state :=
  let row := it.2 in
  let accession := normalize_value (row_get row "Accession") in
  if Py.is_empty accession then mret st
  else
    rs ← foldM (check_column base_dir accession row)
           {| errors := error_count st; checked := checked_count st;
              out_row := new_out_row accession |}
           columns_to_check;
    mret {| error_count := errors rs; checked_count := checked rs;
            out_rows := out_rows st ++ [out_row rs] |}.

(** [pd.DataFrame(out_rows)[labels]] as [to_csv] writes it; a cell that a
    record lacks is written empty. *)
Definition select (labels : list string) (out_rows : list (gmap string string))
  : csv_table :=
  {| header := labels;
     records := (fun r : gmap string string =>
                   (fun c => default "" (r !! c)) <$> labels) <$> out_rows |}.

(** [sum(1 for r in out_rows for c in columns_to_check if r.get(c))] *)
Definition found_count (out_rows : list (gmap string string)) : nat :=
  sum_list ((fun r : gmap string string =>
               length (List.filter
                         (fun c => negb (Py.is_empty (default "" (r !! c))))
                         columns_to_check)) <$> out_rows).

Definition str_nat (n : nat) : string := Py.str_int (Z.of_nat n).

(** [main], for parsed arguments. *)
Definition main (args : Args) : IO Z :=
  let excel_path := Path.of_string (excel args) in
  let base_dir := Path.of_string (base_dir args) in
  found ← exists_ excel_path;
  if negb found
  then raise (FileNotFoundError
                ("Excel file not found: " ++ Path.to_string excel_path))
  else
    found ← exists_ base_dir;
    if negb found
    then raise (FileNotFoundError
                  ("Base directory not found: " ++ Path.to_string base_dir))
    else
      df ← read_excel excel_path;
      let missing :=
        List.filter (fun c => negb (bool_decide (c ∈ columns df)))
          required_columns in
      match missing with
      | _ :: _ =>
          let missing_list := Py.join ", " (sorted missing) in
          raise (KeyError ("Missing required column(s): " ++ missing_list))
      | [] =>
          st ← foldM (check_row base_dir)
                 {| error_count := 0; checked_count := 0; out_rows := [] |}
                 (iterrows (rows df));
          match out_rows st with
          | _ :: _ =>
              let out_csv := Path.of_string (out_csv args) in
              let out_df :=
                select ["Accession"; "AP_1"; "AP_2"; "AP_3";
                        "Lateral_1"; "Lateral_2"; "Lateral_3"] (out_rows st) in
              to_csv out_df out_csv;;
              print ("Wrote " ++ str_nat (length (out_rows st)) ++ " rows ("
                     ++ str_nat (found_count (out_rows st))
                     ++ " found filenames) to "
                     ++ Path.to_string out_csv ++ ".")
          | [] => mret tt
          end;;
          print ("Checked " ++ str_nat (checked_count st)
                 ++ " AP/Lateral entries.");;
          if (0 <? error_count st)%nat
          then
            print ("Found " ++ str_nat (error_count st)
                   ++ " missing file(s).");;
            mret 1%Z
          else
            print "All files found.";;
            mret 0%Z
      end.

End CheckFiles.

(** ** Vocabulary of the specification *)

(** A cell that stands for no value: absent, the floating not-a-number
    marker, or one whose text, trimmed, is "nan" in any letter case. *)
Definition is_missing (value : pyvalue) : Prop :=
  value = PyNone ∨ value = PyFloat NaN
  ∨ Py.lower (Py.strip (str value)) = "nan".

(** The strings [normalize_value] returns: it maps them to themselves. *)
Definition normalized (s : string) : Prop :=
  AddStudyKey.normalize_value (PyStr s) = s.

(** Every character of the string satisfies the test. *)
Fixpoint all_chars (P : ascii → bool) (s : string) : bool :=
  match s with
  | EmptyString => true
  | String c s' => P c && all_chars P s'
  end.

(** The characters of a printed identifier: [0-9], [a-f] and the hyphen. *)
Definition uuid_char (c : ascii) : bool :=
  let n := N_of_ascii c in
  ((48 <=? n) && (n <=? 57) || (97 <=? n) && (n <=? 102) || (n =? 45))%N.

(** The normalized accession and the normalized key of a record. *)
Definition accession_of (r : row) : string :=
  AddStudyKey.normalize_value (row_get r "Accession").

Definition key_of (key_col : string) (r : row) : string :=
  AddStudyKey.normalize_value (row_get r key_col).

(** The first non-empty normalized key, in row order, among the records
    of the given non-empty accession. *)
Fixpoint first_key (key_col accession : string) (rs : list row)
  : option string :=
  match rs with
  | [] => None
  | r :: rs' =>
      if negb (Py.is_empty accession)
         && String.eqb (accession_of r) accession
         && negb (Py.is_empty (key_of key_col r))
      then Some (key_of key_col r)
      else first_key key_col accession rs'
  end.

(** The record as the second loop leaves it, given the dictionary. *)
Definition written (key_col : string) (m : gmap string string) (r : row)
  : row :=
  if Py.is_empty (accession_of r) then r
  else <[key_col := PyStr (m !!! accession_of r)]> r.

(** What one record does to the dictionary and the number of draws in the
    second loop. *)
Definition key_step (urandom : nat → N) (md : gmap string string * nat)
    (r : row) : gmap string string * nat :=
  if Py.is_empty (accession_of r) then md
  else match md.1 !! accession_of r with
       | Some _ => md
       | None => (<[accession_of r := Uuid.uuid4 (urandom md.2)]> md.1, S md.2)
       end.

(** Every record with an accession carries, as a text cell, the key [f]
    gives to its accession, and those keys are non-empty normalizer
    outputs. *)
Definition keyed (key_col : string) (f : string → string) (rs : list row)
  : Prop :=
  ∀ r, r ∈ rs → accession_of r ≠ "" →
       r !! key_col = Some (PyStr (f (accession_of r)))
       ∧ normalized (f (accession_of r)) ∧ f (accession_of r) ≠ "".

(** The claim that a record's own non-empty key always survives the run. *)
Definition key_preservation_claim : Prop :=
  ∀ (urandom : nat → N) (key_col : string) (df : DataFrame) (i : nat) (r : row),
    key_col ∈ columns df →
    rows df !! i = Some r →
    key_of key_col r ≠ "" →
    ∃ r', rows (AddStudyKey.assign_keys urandom key_col df) !! i = Some r'
          ∧ key_of key_col r' = key_of key_col r.

(** ** Sample data *)

(** A record of a sheet with the columns [Accession] and [Study_Key]. *)
Definition key_row (accession key : pyvalue) : row :=
  <["Accession" := accession]> (<["Study_Key" := key]> ∅).

(** Two records of one study with different keys, a record without an
    accession, and a numeric accession without a key. *)
Definition sample_keys : DataFrame :=
  {| columns := ["Accession"; "Study_Key"];
     rows := [key_row (PyStr "A") (PyStr "K1");
              key_row (PyStr "A") (PyStr "K2");
              key_row (PyStr " ") (PyStr "K3");
              key_row (PyInt 5) (PyFloat NaN)] |}.

Definition zero_entropy : nat → N := fun _ => 0%N.

(** ** Vocabulary for the file validator *)

(** The world after the given lines were printed. *)
Definition add_lines (w : world) (lines : list string) : world :=
  {| files := files w; stdout := stdout w ++ lines |}.

(** The normalized value of an image column of a record. *)
Definition image_value (r : row) (column : string) : string :=
  CheckFiles.normalize_value (row_get r column).

(** The value with ".dcm" appended when it does not end in it already. *)
Definition with_dcm (value : string) : string :=
  if Py.endswith (Py.lower value) ".dcm" then value else value ++ ".dcm".

(** The name shown for a value in diagnostics and in the output cell. *)
Definition display_name (base_dir : Path.t) (accession value : string)
  : string :=
  Path.name (CheckFiles.dcm_display_path base_dir accession value).

(** Some candidate path of the value exists. *)
Definition cell_found (w : world) (base_dir : Path.t)
    (accession value : string) : bool :=
  existsb (path_exists w) (CheckFiles.candidate_paths base_dir accession value).

(** The string contains the path separator. *)
Fixpoint has_sep (s : string) : bool :=
  match s with
  | EmptyString => false
  | String c s' => Ascii.eqb c "/" || has_sep s'
  end.

(** The image columns of a record that hold a value, and those among them
    for which no candidate file exists. *)
Definition checked_cells (r : row) : list string :=
  List.filter (fun c => negb (Py.is_empty (image_value r c)))
    CheckFiles.columns_to_check.

Definition missing_cells (w : world) (base_dir : Path.t) (r : row)
  : list string :=
  List.filter
    (fun c => negb (cell_found w base_dir (accession_of r) (image_value r c)))
    (checked_cells r).

(** The records that have an accession. *)
Definition with_accession (rs : list row) : list row :=
  List.filter (fun r => negb (Py.is_empty (accession_of r))) rs.

(** The number of (record, image column) pairs that hold a value, over
    the records with an accession; and those of them with no file. *)
Definition expected_checked (rs : list row) : nat :=
  sum_list ((fun r => length (checked_cells r)) <$> with_accession rs).

Definition expected_missing (w : world) (base_dir : Path.t) (rs : list row)
  : nat :=
  sum_list ((fun r => length (missing_cells w base_dir r)) <$> with_accession rs).

(** The inner loop body without its printing. *)
Definition column_result (w : world) (base_dir : Path.t) (accession : string)
    (r : row) (st : CheckFiles.row_state) (column : string)
  : CheckFiles.row_state :=
  let v := image_value r column in
  if Py.is_empty v then st
  else if cell_found w base_dir accession v
       then CheckFiles.mkRowState (CheckFiles.errors st)
              (S (CheckFiles.checked st))
              (<[column := display_name base_dir accession v]>
                 (CheckFiles.out_row st))
       else CheckFiles.mkRowState (S (CheckFiles.errors st))
              (S (CheckFiles.checked st)) (CheckFiles.out_row st).

(** The output row of a record with an accession. *)
Definition expected_out_row (w : world) (base_dir : Path.t) (r : row)
  : gmap string string :=
  CheckFiles.out_row
    (foldl (column_result w base_dir (accession_of r) r)
       (CheckFiles.mkRowState 0 0 (CheckFiles.new_out_row (accession_of r)))
       CheckFiles.columns_to_check).

(** The outer loop body without its printing. *)
Definition row_result (w : world) (base_dir : Path.t)
    (st : CheckFiles.loop_state) (r : row) : CheckFiles.loop_state :=
  if Py.is_empty (accession_of r) then st
  else
    let rs :=
      foldl (column_result w base_dir (accession_of r) r)
        (CheckFiles.mkRowState (CheckFiles.error_count st)
           (CheckFiles.checked_count st)
           (CheckFiles.new_out_row (accession_of r)))
        CheckFiles.columns_to_check in
    CheckFiles.mkLoop (CheckFiles.errors rs) (CheckFiles.checked rs)
      (CheckFiles.out_rows st ++ [CheckFiles.out_row rs]).

(** The header of the output table. *)
Definition output_header : list string :=
  ["Accession"; "AP_1"; "AP_2"; "AP_3"; "Lateral_1"; "Lateral_2"; "Lateral_3"].

(** What [main] requires before it enters its loop: the workbook holds
    the dataset, the base directory exists, and the dataset has the
    required columns. *)
Definition ready (args : CheckFiles.Args) (w : world) (df : DataFrame) : Prop :=
  files w !! Path.to_string (Path.of_string (CheckFiles.excel args))
    = Some (Workbook df)
  ∧ path_exists w (Path.of_string (CheckFiles.base_dir args)) = true
  ∧ ∀ c, c ∈ CheckFiles.required_columns → c ∈ columns df.

(** The world [main] leaves behind, from the collected state and the
    diagnostics printed by the loop. *)
Definition final_world (args : CheckFiles.Args) (w : world)
    (st : CheckFiles.loop_state) (lines : list string) : world :=
  let w1 := add_lines w lines in
  let w2 :=
    match CheckFiles.out_rows st with
    | [] => w1
    | _ :: _ =>
        add_lines
          {| files :=
               <[Path.to_string (Path.of_string (CheckFiles.out_csv args)) :=
                   CsvFile (CheckFiles.select output_header
                              (CheckFiles.out_rows st))]> (files w1);
             stdout := stdout w1 |}
          ["Wrote " ++ CheckFiles.str_nat (length (CheckFiles.out_rows st))
           ++ " rows ("
           ++ CheckFiles.str_nat (CheckFiles.found_count (CheckFiles.out_rows st))
           ++ " found filenames) to "
           ++ Path.to_string (Path.of_string (CheckFiles.out_csv args)) ++ "."]
    end in
  add_lines w2
    ["Checked " ++ CheckFiles.str_nat (CheckFiles.checked_count st)
     ++ " AP/Lateral entries.";
     if (0 <? CheckFiles.error_count st)%nat
     then "Found " ++ CheckFiles.str_nat (CheckFiles.error_count st)
          ++ " missing file(s)."
     else "All files found."].

(** The text after the last path separator. *)
Definition basename (s : string) : string := List.last (Path.split s) "".

(** The claim that the display name is always the value with the
    extension appended when absent. *)
Definition display_name_claim : Prop :=
  ∀ (base_dir : Path.t) (accession value : string),
    accession ≠ "" → value ≠ "" → normalized accession → normalized value →
    display_name base_dir accession value = with_dcm value.

(** A record of a sheet of image references. *)
Definition image_row (accession ap_1 lateral_1 : pyvalue) : row :=
  <["Accession" := accession]>
    (<["AP_1" := ap_1]>
       (<["AP_2" := PyFloat NaN]>
          (<["AP_3" := PyFloat NaN]>
             (<["Lateral_1" := lateral_1]>
                (<["Lateral_2" := PyFloat NaN]>
                   (<["Lateral_3" := PyFloat NaN]> ∅)))))).

(** A sheet whose columns are not in the order of the output table: a
    study with two images, one without any, one whose image is missing on
    disk, and a record without accession. *)
Definition sample_images : DataFrame :=
  {| columns := ["Lateral_1"; "Lateral_2"; "Lateral_3"; "Accession";
                 "AP_3"; "AP_2"; "AP_1"];
     rows := [image_row (PyStr "A1") (PyStr "IMG1") (PyStr "IMG2.DCM");
              image_row (PyStr "A2") (PyFloat NaN) (PyFloat NaN);
              image_row (PyInt 3) (PyStr " scan ") (PyFloat NaN);
              image_row (PyFloat NaN) (PyStr "IMG9") (PyFloat NaN)] |}.

Definition sample_world : world :=
  {| files := <["in.xlsx" := Workbook sample_images]>
                (<["base" := Directory]>
                   (<["base/A1/IMG1.dcm" := Blob]>
                      (<["base/A1/IMG2.DCM" := Blob]> ∅)));
     stdout := [] |}.

Definition sample_args : CheckFiles.Args :=
  {| CheckFiles.excel := "in.xlsx";
     CheckFiles.base_dir := "base";
     CheckFiles.out_csv := "found_files.csv" |}.

(** A sheet without the accession column, and a world that holds it. *)
Definition sample_no_accession : DataFrame :=
  {| columns := ["AP_1"; "Lateral_1"; "Study"];
     rows := [<["AP_1" := PyStr "IMG1"]> (<["Study" := PyStr "A1"]> ∅)] |}.

Definition sample_world_no_accession : world :=
  {| files := <["in.xlsx" := Workbook sample_no_accession]>
                (<["base" := Directory]> ∅);
     stdout := [] |}.

(** ** Vocabulary for the further properties *)

(** The distinct non-empty accessions of the records. *)
Definition accessions (rs : list row) : gset string :=
  list_to_set (accession_of <$> with_accession rs).

(** The diagnostics that one image column of a record produces. *)
Definition column_lines (w : world) (base_dir : Path.t) (accession : string)
    (r : row) (column : string) : list string :=
  let v := image_value r column in
  if Py.is_empty v then []
  else if cell_found w base_dir accession v then []
       else ["ERROR: Missing file for Accession " ++ accession
             ++ " (" ++ column ++ "): " ++ display_name base_dir accession v].

(** The diagnostics of one record, and of a dataset, in the order of the
    loops. *)
Definition row_lines (w : world) (base_dir : Path.t) (r : row)
  : list string :=
  if Py.is_empty (accession_of r) then []
  else concat (column_lines w base_dir (accession_of r) r
               <$> CheckFiles.columns_to_check).

Definition error_lines (w : world) (base_dir : Path.t) (rs : list row)
  : list string :=
  concat (row_lines w base_dir <$> rs).

(** The output cell of an image column of a record: the display name when
    the column holds a value and a candidate file exists, else empty. *)
Definition expected_cell (w : world) (base_dir : Path.t) (r : row)
    (column : string) : string :=
  let v := image_value r column in
  if negb (Py.is_empty v) && cell_found w base_dir (accession_of r) v
  then display_name base_dir (accession_of r) v
  else "".

(** The lines [main] prints after its loop. *)
Definition summary_lines (args : CheckFiles.Args) (w : world) (rs : list row)
  : list string :=
  let base := Path.of_string (CheckFiles.base_dir args) in
  let out := expected_out_row w base <$> with_accession rs in
  match out with
  | [] => []
  | _ :: _ =>
      ["Wrote " ++ CheckFiles.str_nat (length out) ++ " rows ("
       ++ CheckFiles.str_nat (CheckFiles.found_count out)
       ++ " found filenames) to "
       ++ Path.to_string (Path.of_string (CheckFiles.out_csv args)) ++ "."]
  end
  ++ ["Checked " ++ CheckFiles.str_nat (expected_checked rs)
      ++ " AP/Lateral entries.";
      if (0 <? expected_missing w base rs)%nat
      then "Found " ++ CheckFiles.str_nat (expected_missing w base rs)
           ++ " missing file(s)."
      else "All files found."].

(** Two studies without keys, the first on two records. *)
Definition sample_keyless : DataFrame :=
  {| columns := ["Accession"; "Study_Key"];
     rows := [key_row (PyStr "A") (PyFloat NaN);
              key_row (PyStr "B") (PyStr " ");
              key_row (PyStr " A ") PyNone] |}.

Definition counting_entropy : nat → N := N.of_nat.

(** A world without any file. *)
Definition empty_world : world := {| files := ∅; stdout := [] |}.

(** A world where the workbook is present and the base directory is not. *)
Definition sample_world_no_base : world :=
  {| files := <["in.xlsx" := Workbook sample_no_accession]> ∅; stdout := [] |}.

(** A sheet whose records all lack an accession, and a world holding it. *)
Definition sample_no_study : DataFrame :=
  {| columns := ["Accession"; "AP_1"; "AP_2"; "AP_3";
                 "Lateral_1"; "Lateral_2"; "Lateral_3"];
     rows := [image_row (PyFloat NaN) (PyStr "IMG1") (PyFloat NaN);
              image_row (PyStr " nan ") (PyFloat NaN) (PyStr "IMG2")] |}.

Definition sample_world_no_study : world :=
  {| files := <["in.xlsx" := Workbook sample_no_study]>
                (<["base" := Directory]> ∅);
     stdout := [] |}.

(** The sample world with one more file: the image that was missing. *)
Definition sample_world_complete : world :=
  {| files := <["base/3/scan.dcm" := Blob]> (files sample_world);
     stdout := [] |}.


(** * Properties *)

(** ** Evaluation on small inputs *)

Example uuid4_zero : Uuid.uuid4 0 = "00000000-0000-4000-8000-000000000000".
Proof. reflexivity. Qed.

Example uuid4_ones :
  Uuid.uuid4 (2 ^ 128 - 1) = "ffffffff-ffff-4fff-bfff-ffffffffffff".
Proof. vm_compute. reflexivity. Qed.

Example path_join_ex :
  Path.to_string (Path.of_string "/data//x/" // "A1" // "sub/./IMG.dcm")
  = "/data/x/A1/sub/IMG.dcm".
Proof. reflexivity. Qed.

Example path_name_ex : Path.name (Path.of_string "base" // "A1" // "a/b.dcm") = "b.dcm".
Proof. reflexivity. Qed.

Example str_int_neg : str (PyInt (-120)) = "-120".
Proof. reflexivity. Qed.

Example strip_ex : Py.strip "  a b	 " = "a b".
Proof. reflexivity. Qed.

Example normalize_nan_ex : AddStudyKey.normalize_value (PyStr " NaN ") = "".
Proof. reflexivity. Qed.

Example sorted_ex :
  CheckFiles.sorted ["Lateral_1"; "Accession"; "AP_2"] = ["AP_2"; "Accession"; "Lateral_1"].
Proof. vm_compute. reflexivity. Qed.

(** ** Python strings *)

Lemma rstrip_cons c s :
  Py.rstrip (String c s) =
  match Py.rstrip s with
  | EmptyString => if Py.isspace c then EmptyString else String c EmptyString
  | t => String c t
  end.
Proof. reflexivity. Qed.

Lemma rstrip_idem s : Py.rstrip (Py.rstrip s) = Py.rstrip s.
Proof.
  induction s as [|c s IH]; [reflexivity|].
  rewrite rstrip_cons. destruct (Py.rstrip s) as [|d t] eqn:E.
  - destruct (Py.isspace c) eqn:Ec; [reflexivity|].
    rewrite rstrip_cons. simpl. by rewrite Ec.
  - rewrite rstrip_cons, IH. reflexivity.
Qed.

Lemma lstrip_head s :
  Py.lstrip s = "" ∨ ∃ c t, Py.lstrip s = String c t ∧ Py.isspace c = false.
Proof.
  induction s as [|c s IH]; [by left|].
  simpl. destruct (Py.isspace c) eqn:Ec; [exact IH|]. right. eauto.
Qed.

Lemma rstrip_head c s :
  Py.isspace c = false → ∃ t, Py.rstrip (String c s) = String c t.
Proof.
  intros Ec. rewrite rstrip_cons. destruct (Py.rstrip s); [rewrite Ec|]; eauto.
Qed.

Lemma strip_idem s : Py.strip (Py.strip s) = Py.strip s.
Proof.
  unfold Py.strip. destruct (lstrip_head s) as [->|(c & t & -> & Ec)].
  - reflexivity.
  - destruct (rstrip_head c t Ec) as [u Hu]. rewrite Hu.
    simpl Py.lstrip. rewrite Ec, <- Hu. apply rstrip_idem.
Qed.

Lemma is_empty_true s : Py.is_empty s = true ↔ s = "".
Proof. destruct s; simpl; split; congruence. Qed.

Lemma is_empty_false s : Py.is_empty s = false ↔ s ≠ "".
Proof. destruct s; simpl; split; congruence. Qed.

(** ** The value normalizer *)

Lemma normalize_value_same value :
  CheckFiles.normalize_value value = AddStudyKey.normalize_value value.
Proof. reflexivity. Qed.

Lemma normalize_value_text s :
  AddStudyKey.normalize_value (PyStr s) =
  if String.eqb (Py.lower (Py.strip s)) "nan" then "" else Py.strip s.
Proof. reflexivity. Qed.

Lemma normalized_empty : normalized "".
Proof. reflexivity. Qed.

Lemma normalize_value_cases value :
  AddStudyKey.normalize_value value = ""
  ∨ (AddStudyKey.normalize_value value = Py.strip (str value)
     ∧ String.eqb (Py.lower (Py.strip (str value))) "nan" = false).
Proof.
  unfold AddStudyKey.normalize_value.
  destruct (is_None value || isinstance_float value && isna value);
    [by left|].
  cbv zeta. destruct (String.eqb (Py.lower (Py.strip (str value))) "nan");
    [by left | by right].
Qed.

Lemma normalize_value_normalized value :
  normalized (AddStudyKey.normalize_value value).
Proof.
  unfold normalized.
  destruct (normalize_value_cases value) as [->|[-> E]]; [reflexivity|].
  rewrite normalize_value_text, strip_idem, E. reflexivity.
Qed.

(** C4. The value normalizer is a total function on cells ([str] of a
    cell and every step after it are defined for all inputs); it returns
    the empty string for an absent cell, for the floating not-a-number
    marker and for text that is "nan" once trimmed and lower-cased; for
    every other cell it returns the trimmed string form; and it maps its
    own output to itself. Both tools carry the same function. *)
Theorem normalize_value_contract (value : pyvalue) :
  CheckFiles.normalize_value value = AddStudyKey.normalize_value value
  ∧ (is_missing value → AddStudyKey.normalize_value value = "")
  ∧ (¬ is_missing value →
     AddStudyKey.normalize_value value = Py.strip (str value))
  ∧ AddStudyKey.normalize_value (PyStr (AddStudyKey.normalize_value value))
    = AddStudyKey.normalize_value value.
Proof.
  split; [reflexivity|]. split; [|split].
  - intros [->|[->|H]]; [reflexivity..|].
    unfold AddStudyKey.normalize_value.
    destruct (is_None value || isinstance_float value && isna value);
      [reflexivity|].
    cbv zeta. rewrite H. reflexivity.
  - intros H. unfold AddStudyKey.normalize_value.
    destruct (is_None value || isinstance_float value && isna value) eqn:E.
    + exfalso. apply H. destruct value as [|[|]| | |]; try discriminate E.
      * by left.
      * right; by left.
    + cbv zeta.
      destruct (String.eqb (Py.lower (Py.strip (str value))) "nan") eqn:E2;
        [|reflexivity].
      exfalso. apply H. right; right. by apply String.eqb_eq.
  - apply normalize_value_normalized.
Qed.

(** ** Printed identifiers *)

Lemma all_chars_app P a b :
  all_chars P (a ++ b) = all_chars P a && all_chars P b.
Proof.
  induction a as [|c a IH]; simpl; [reflexivity|].
  by rewrite IH, andb_assoc.
Qed.

Lemma all_chars_substring P s :
  all_chars P s = true → ∀ i n, all_chars P (substring i n s) = true.
Proof.
  induction s as [|c s IH]; intros H i n.
  - destruct i, n; reflexivity.
  - simpl in H. apply andb_true_iff in H as [Hc Hs].
    destruct i as [|i]; [destruct n as [|n]|]; simpl; [reflexivity| |by apply IH].
    rewrite Hc. by apply IH.
Qed.

Lemma hex_digit_uuid_char d : uuid_char (Uuid.hex_digit d) = true.
Proof.
  unfold Uuid.hex_digit, uuid_char.
  assert (d mod 16 < 16)%N as Hlt by (apply N.mod_lt; discriminate).
  generalize dependent (d mod 16)%N. intros c Hlt. cbv zeta.
  destruct (N.ltb_spec c 10) as [H10|H10];
    (rewrite N_ascii_embedding by lia);
    rewrite !orb_true_iff, !andb_true_iff, !N.leb_le, N.eqb_eq; lia.
Qed.

Lemma hex_uuid_chars k n : all_chars uuid_char (Uuid.hex k n) = true.
Proof.
  revert n. induction k as [|k IH]; intros n; [reflexivity|].
  simpl. rewrite all_chars_app, IH. simpl.
  by rewrite hex_digit_uuid_char.
Qed.

Lemma uuid_to_string_chars n : all_chars uuid_char (Uuid.to_string n) = true.
Proof.
  unfold Uuid.to_string. cbv zeta.
  repeat rewrite all_chars_app.
  repeat rewrite (all_chars_substring _ _ (hex_uuid_chars 32 n)).
  reflexivity.
Qed.

Lemma uuid_char_plain c :
  uuid_char c = true → Py.isspace c = false ∧ Py.lower_char c = c.
Proof.
  destruct c as [[|] [|] [|] [|] [|] [|] [|] [|]]; vm_compute;
    intros H; (discriminate H || (split; reflexivity)).
Qed.

Lemma uuid_chars_lstrip s : all_chars uuid_char s = true → Py.lstrip s = s.
Proof.
  destruct s as [|c s]; [reflexivity|]. simpl.
  intros [Hc _]%andb_true_iff. by destruct (uuid_char_plain c Hc) as [-> _].
Qed.

Lemma uuid_chars_rstrip s : all_chars uuid_char s = true → Py.rstrip s = s.
Proof.
  induction s as [|c s IH]; [reflexivity|].
  simpl all_chars. intros [Hc Hs]%andb_true_iff.
  rewrite rstrip_cons, (IH Hs). destruct (uuid_char_plain c Hc) as [-> _].
  by destruct s.
Qed.

Lemma uuid_chars_lower s : all_chars uuid_char s = true → Py.lower s = s.
Proof.
  induction s as [|c s IH]; [reflexivity|].
  simpl. intros [Hc Hs]%andb_true_iff.
  rewrite (IH Hs). by destruct (uuid_char_plain c Hc) as [_ ->].
Qed.

Lemma uuid4_nonempty random : Uuid.uuid4 random ≠ "".
Proof.
  unfold Uuid.uuid4, Uuid.to_string. cbv zeta.
  destruct (substring 0 8 _); discriminate.
Qed.

Lemma uuid4_normalized random : normalized (Uuid.uuid4 random).
Proof.
  unfold normalized, Uuid.uuid4.
  pose proof (uuid_to_string_chars (Uuid.version4 random)) as H.
  rewrite normalize_value_text. unfold Py.strip.
  rewrite (uuid_chars_lstrip _ H), (uuid_chars_rstrip _ H), (uuid_chars_lower _ H).
  destruct (String.eqb_spec (Uuid.to_string (Uuid.version4 random)) "nan") as [E|];
    [|reflexivity].
  rewrite E in H. discriminate H.
Qed.

(** ** The key assigner: the first loop *)

Section Harvest.

Variable key_col : string.

Lemma setdefault_subseteq (m : gmap string string) k v :
  m ⊆ AddStudyKey.setdefault m k v.
Proof.
  unfold AddStudyKey.setdefault. destruct (m !! k) eqn:E; [done|].
  by apply insert_subseteq.
Qed.

Lemma harvest_step_subseteq (m : gmap string string) (it : nat * row) :
  m ⊆ AddStudyKey.harvest_step key_col m it.
Proof.
  unfold AddStudyKey.harvest_step. cbv zeta.
  repeat case_match; try done. apply setdefault_subseteq.
Qed.

Lemma harvest_step_lookup (m : gmap string string) (it : nat * row) a :
  AddStudyKey.harvest_step key_col m it !! a =
  match m !! a with
  | Some v => Some v
  | None => first_key key_col a [it.2]
  end.
Proof.
  unfold AddStudyKey.harvest_step, first_key. cbv zeta.
  fold (accession_of it.2) (key_of key_col it.2).
  destruct (Py.is_empty (accession_of it.2)) eqn:Ea.
  - apply is_empty_true in Ea.
    destruct (m !! a) eqn:Em; [done|].
    destruct (Py.is_empty a) eqn:Ea'; [done|].
    apply is_empty_false in Ea'.
    destruct (String.eqb_spec (accession_of it.2) a); [congruence|done].
  - destruct (Py.is_empty (key_of key_col it.2)) eqn:Ek.
    + rewrite andb_false_r. by destruct (m !! a).
    + unfold AddStudyKey.setdefault.
      destruct (String.eqb_spec (accession_of it.2) a) as [Heq|Hne].
      * rewrite Heq in *. rewrite Ea. simpl.
        destruct (m !! a) eqn:Em; [done|].
        by rewrite lookup_insert_eq.
      * rewrite andb_false_r. simpl.
        destruct (m !! accession_of it.2) eqn:Em.
        -- by destruct (m !! a).
        -- rewrite lookup_insert_ne by done. by destruct (m !! a).
Qed.

Lemma first_key_app a rs1 rs2 :
  first_key key_col a (rs1 ++ rs2)%list =
  match first_key key_col a rs1 with
  | Some v => Some v
  | None => first_key key_col a rs2
  end.
Proof.
  induction rs1 as [|r rs1 IH]; [done|]. simpl.
  by destruct (negb (Py.is_empty a) && String.eqb (accession_of r) a
               && negb (Py.is_empty (key_of key_col r))).
Qed.

Lemma harvest_fold_lookup rs : ∀ (g : nat → row → nat * row) m a,
  (∀ i r, (g i r).2 = r) →
  foldl (AddStudyKey.harvest_step key_col) m (imap g rs) !! a =
  match m !! a with
  | Some v => Some v
  | None => first_key key_col a rs
  end.
Proof.
  induction rs as [|r rs IH]; intros g m a Hg.
  - simpl. by destruct (m !! a).
  - rewrite imap_cons. simpl foldl. rewrite IH by (intros; apply Hg).
    rewrite harvest_step_lookup, Hg.
    change (r :: rs) with ([r] ++ rs)%list. rewrite first_key_app.
    destruct (m !! a); [done|]. by destruct (first_key key_col a [r]).
Qed.

(** The first loop records, for every accession, the first key found. *)
Lemma harvest_lookup rs a :
  AddStudyKey.harvest key_col rs !! a = first_key key_col a rs.
Proof.
  unfold AddStudyKey.harvest, iterrows.
  rewrite harvest_fold_lookup by done. by rewrite lookup_empty.
Qed.

Lemma first_key_Some a rs v :
  first_key key_col a rs = Some v →
  a ≠ "" ∧ v ≠ "" ∧ normalized v
  ∧ ∃ r, r ∈ rs ∧ accession_of r = a ∧ key_of key_col r = v.
Proof.
  induction rs as [|r rs IH]; [done|]. simpl.
  destruct (Py.is_empty a) eqn:Ea; simpl.
  - intros H. destruct (IH H) as (Hne & _). by apply is_empty_true in Ea.
  - destruct (String.eqb_spec (accession_of r) a) as [Hr|Hr]; simpl.
    + destruct (Py.is_empty (key_of key_col r)) eqn:Ek; simpl.
      * intros H. destruct (IH H) as (? & ? & ? & r' & ? & ? & ?).
        repeat split; try done. exists r'. split; [by right|done].
      * intros [= <-]. apply is_empty_false in Ea, Ek.
        repeat split; try done.
        -- apply normalize_value_normalized.
        -- exists r. split; [by left|done].
    + intros H. destruct (IH H) as (? & ? & ? & r' & ? & ? & ?).
      repeat split; try done. exists r'. split; [by right|done].
Qed.

End Harvest.

(** ** The key assigner: the second loop *)

Section Fill.

Variable key_col : string.
Variable urandom : nat → N.

Lemma key_step_subseteq md r : md.1 ⊆ (key_step urandom md r).1.
Proof.
  unfold key_step. destruct (Py.is_empty (accession_of r)); [done|].
  destruct (md.1 !! accession_of r) eqn:E; [done|].
  by apply insert_subseteq.
Qed.

Lemma key_step_cases md r :
  key_step urandom md r = md
  ∨ (accession_of r ≠ "" ∧ md.1 !! accession_of r = None
     ∧ key_step urandom md r
       = (<[accession_of r := Uuid.uuid4 (urandom md.2)]> md.1, S md.2)).
Proof.
  unfold key_step. destruct (Py.is_empty (accession_of r)) eqn:Ea; [by left|].
  destruct (md.1 !! accession_of r) eqn:E; [by left|].
  right. by apply is_empty_false in Ea.
Qed.

Lemma key_step_draws md r : (md.2 ≤ (key_step urandom md r).2)%nat.
Proof. unfold key_step. repeat case_match; simpl; lia. Qed.

Lemma key_fold_subseteq rs : ∀ md, md.1 ⊆ (foldl (key_step urandom) md rs).1.
Proof.
  induction rs as [|r rs IH]; intros md; [done|]. simpl.
  etrans; [apply key_step_subseteq|apply IH].
Qed.

Lemma key_fold_draws rs : ∀ md, (md.2 ≤ (foldl (key_step urandom) md rs).2)%nat.
Proof.
  induction rs as [|r rs IH]; intros md; [done|]. simpl.
  etrans; [apply key_step_draws|apply IH].
Qed.

Lemma key_step_covers md r :
  accession_of r ≠ "" → is_Some ((key_step urandom md r).1 !! accession_of r).
Proof.
  intros Ha%is_empty_false. unfold key_step. rewrite Ha.
  destruct (md.1 !! accession_of r) eqn:E; [by rewrite E|].
  simpl. by rewrite lookup_insert_eq.
Qed.

(** After the loop every accession met has an entry. *)
Lemma key_fold_covers rs : ∀ md r,
  r ∈ rs → accession_of r ≠ "" →
  is_Some ((foldl (key_step urandom) md rs).1 !! accession_of r).
Proof.
  induction rs as [|r0 rs IH]; intros md r Hin Ha; [by apply elem_of_nil in Hin|].
  simpl. apply elem_of_cons in Hin as [->|Hin]; [|by apply IH].
  destruct (key_step_covers md r0 Ha) as [v Hv].
  exists v. eapply lookup_weaken; [exact Hv|apply key_fold_subseteq].
Qed.

(** An entry of the final dictionary was there at the start, or is an
    identifier drawn during the loop for an accession that had none. *)
Lemma key_fold_origin rs : ∀ md a v,
  (foldl (key_step urandom) md rs).1 !! a = Some v →
  md.1 !! a = Some v
  ∨ (md.1 !! a = None
     ∧ (∃ r, r ∈ rs ∧ accession_of r = a ∧ a ≠ "")
     ∧ ∃ j, (md.2 ≤ j < (foldl (key_step urandom) md rs).2)%nat
            ∧ v = Uuid.uuid4 (urandom j)).
Proof.
  induction rs as [|r rs IH]; intros md a v; [by left|].
  simpl. intros H. destruct (IH _ _ _ H) as [H1|(H1 & (r' & ? & ? & ?) & j & Hj & ->)].
  - destruct (key_step_cases md r) as [Hk|(Ha & E & Hk)]; rewrite Hk in *;
      [by left|]. simpl in H1.
    destruct (decide (accession_of r = a)) as [<-|Hne].
    + rewrite lookup_insert_eq in H1. injection H1 as <-. right.
      split; [done|]. split.
      * exists r. split; [by left|done].
      * exists md.2. split; [|done].
        pose proof (key_fold_draws rs
                      (<[accession_of r:=Uuid.uuid4 (urandom md.2)]> md.1, S md.2)).
        simpl in *. lia.
    + rewrite lookup_insert_ne in H1 by done. by left.
  - right. split.
    + destruct (md.1 !! a) eqn:E; [|done].
      pose proof (lookup_weaken _ _ _ _ E (key_step_subseteq md r)). congruence.
    + split; [exists r'; split; [by right|done]|].
      exists j. split; [|done]. pose proof (key_step_draws md r). lia.
Qed.

(** When every accession already has an entry the loop draws nothing. *)
Lemma key_fold_id rs : ∀ md,
  (∀ r, r ∈ rs → accession_of r ≠ "" → is_Some (md.1 !! accession_of r)) →
  foldl (key_step urandom) md rs = md.
Proof.
  induction rs as [|r rs IH]; intros md H; [done|]. simpl.
  assert (key_step urandom md r = md) as ->.
  { unfold key_step. destruct (Py.is_empty (accession_of r)) eqn:Ea; [done|].
    destruct (H r) as [v ->]; [by left|by apply is_empty_false|done]. }
  apply IH. intros r' Hr'. apply H. by right.
Qed.

Lemma fill_step_subseteq st it :
  AddStudyKey.accession_to_key st
  ⊆ AddStudyKey.accession_to_key (AddStudyKey.fill_step key_col urandom st it).
Proof.
  unfold AddStudyKey.fill_step, AddStudyKey.fresh_key. cbv zeta.
  destruct (Py.is_empty _); [done|].
  destruct (AddStudyKey.accession_to_key st !! _) eqn:E; simpl; [done|].
  by apply insert_subseteq.
Qed.

Lemma fill_fold rs : ∀ pre m n,
  foldl (AddStudyKey.fill_step key_col urandom)
    (AddStudyKey.mkFill m n (pre ++ rs)%list)
    (imap (fun i r => (length pre + i, r)) rs)
  = AddStudyKey.mkFill
      (foldl (key_step urandom) (m, n) rs).1
      (foldl (key_step urandom) (m, n) rs).2
      (pre ++ (written key_col (foldl (key_step urandom) (m, n) rs).1 <$> rs))%list.
Proof.
  induction rs as [|r rs IH]; intros pre m n.
  - simpl. by rewrite !app_nil_r.
  - rewrite imap_cons. simpl foldl.
    assert (imap ((fun i (r : row) => (length pre + i, r)) ∘ S) rs
            = imap (fun i (x : row) =>
                      (length (pre ++ [written key_col
                                         (key_step urandom (m, n) r).1 r])%list
                       + i, x)) rs) as ->.
    { apply imap_ext. intros i x _. simpl. rewrite length_app. simpl.
      f_equal. lia. }
    assert (AddStudyKey.fill_step key_col urandom
              (AddStudyKey.mkFill m n (pre ++ r :: rs)%list) (length pre + 0, r)
            = AddStudyKey.mkFill (key_step urandom (m, n) r).1
                (key_step urandom (m, n) r).2
                ((pre ++ [written key_col (key_step urandom (m, n) r).1 r]) ++ rs)%list)
      as ->.
    { unfold AddStudyKey.fill_step, AddStudyKey.fresh_key, key_step, written.
      cbv zeta. simpl. fold (accession_of r).
      destruct (Py.is_empty (accession_of r)) eqn:Ea.
      - simpl. by rewrite <- app_assoc.
      - destruct (m !! accession_of r) eqn:E; simpl; unfold at_set;
          rewrite alter_app_r; simpl; by rewrite <- app_assoc. }
    destruct (key_step urandom (m, n) r) as [m1 n1] eqn:Hstep.
    cbn [fst snd]. rewrite IH. simpl. f_equal. rewrite <- app_assoc. simpl.
    do 2 f_equal.
    unfold written. destruct (Py.is_empty (accession_of r)) eqn:Ea; [done|].
    apply is_empty_false in Ea.
    destruct (key_step_covers (m, n) r Ea) as [v Hv]. rewrite Hstep in Hv.
    simpl in Hv.
    pose proof (lookup_weaken _ _ _ _ Hv (key_fold_subseteq rs (m1, n1))) as Hv'.
    by rewrite (lookup_total_correct _ _ _ Hv), (lookup_total_correct _ _ _ Hv').
Qed.

(** The two loops, row by row. *)
Lemma run_passes_eq df :
  AddStudyKey.run_passes urandom key_col df =
  let rs := rows (AddStudyKey.ensure_key_column key_col df) in
  let md := foldl (key_step urandom) (AddStudyKey.harvest key_col rs, 0) rs in
  AddStudyKey.mkFill md.1 md.2 (written key_col md.1 <$> rs).
Proof.
  unfold AddStudyKey.run_passes, iterrows. cbv zeta.
  exact (fill_fold _ [] _ _).
Qed.

End Fill.

(** ** The key assigner: the run *)

Section AssignKeys.

Variable key_col : string.

Lemma row_get_insert (r : row) c c' x :
  row_get (<[c := x]> r) c' = if decide (c = c') then x else row_get r c'.
Proof.
  unfold row_get. destruct (decide (c = c')) as [->|Hne].
  - by rewrite lookup_insert_eq.
  - by rewrite lookup_insert_ne.
Qed.

Lemma ensure_key_column_has_key df :
  key_col ∈ columns (AddStudyKey.ensure_key_column key_col df).
Proof.
  unfold AddStudyKey.ensure_key_column, set_column.
  destruct (bool_decide (key_col ∈ columns df)) eqn:E.
  - by apply bool_decide_eq_true in E.
  - simpl. apply elem_of_app. right. by left.
Qed.

Lemma ensure_key_column_present df :
  key_col ∈ columns df → AddStudyKey.ensure_key_column key_col df = df.
Proof.
  intros H. unfold AddStudyKey.ensure_key_column.
  by rewrite bool_decide_eq_true_2.
Qed.

Lemma written_blank m r : accession_of r = "" → written key_col m r = r.
Proof. intros H. unfold written. by rewrite H. Qed.

Lemma written_keyed m r :
  accession_of r ≠ "" →
  written key_col m r = <[key_col := PyStr (m !!! accession_of r)]> r.
Proof. intros H%is_empty_false. unfold written. by rewrite H. Qed.

(** The accession of a record that received the key [v]. *)
Lemma accession_of_insert_key (r : row) v :
  normalized v →
  accession_of (<[key_col := PyStr v]> r) =
  if decide (key_col = "Accession") then v else accession_of r.
Proof.
  intros Hv. unfold accession_of. rewrite row_get_insert.
  by destruct (decide (key_col = "Accession")).
Qed.

Lemma first_key_keyed f rs :
  keyed key_col f rs →
  ∀ a, a ≠ "" → (∃ r, r ∈ rs ∧ accession_of r = a) →
       first_key key_col a rs = Some (f a).
Proof.
  induction rs as [|r0 rs IH]; intros Hk a Ha (r & Hin & Hr).
  - by apply elem_of_nil in Hin.
  - simpl. apply is_empty_false in Ha as Ha'. rewrite Ha'. simpl.
    destruct (String.eqb_spec (accession_of r0) a) as [H0|H0]; simpl.
    + destruct (Hk r0) as (Hcell & Hnorm & Hne); [by left|congruence|].
      unfold key_of, row_get. rewrite Hcell. simpl. rewrite H0 in *.
      rewrite Hnorm. apply is_empty_false in Hne. by rewrite Hne.
    + apply IH; [|done|].
      * intros r' Hr'. apply Hk. by right.
      * apply elem_of_cons in Hin as [->|Hin]; [done|]. by exists r.
Qed.

Lemma first_key_at rs : ∀ i r,
  rs !! i = Some r →
  accession_of r ≠ "" →
  key_of key_col r ≠ "" →
  (∀ j r', (j < i)%nat → rs !! j = Some r' →
           accession_of r' = accession_of r →
           key_of key_col r' = "" ∨ key_of key_col r' = key_of key_col r) →
  first_key key_col (accession_of r) rs = Some (key_of key_col r).
Proof.
  induction rs as [|r0 rs IH]; intros i r Hi Ha Hk Hfirst; [done|].
  simpl. apply is_empty_false in Ha as Ha'. rewrite Ha'. simpl.
  destruct i as [|i].
  - injection Hi as ->. rewrite String.eqb_refl. simpl.
    apply is_empty_false in Hk. by rewrite Hk.
  - simpl in Hi.
    assert (first_key key_col (accession_of r) rs = Some (key_of key_col r))
      as Htail.
    { apply (IH i); [done..|]. intros j r' Hj Hr'.
      apply (Hfirst (S j)); [lia|done]. }
    destruct (String.eqb_spec (accession_of r0) (accession_of r)) as [H0|H0];
      simpl; [|done].
    destruct (Hfirst 0%nat r0) as [He|He]; [lia|done|done|..].
    + by rewrite He.
    + rewrite He. apply is_empty_false in Hk. by rewrite Hk.
Qed.

Variable urandom : nat → N.

(** The entries of the final dictionary are non-empty normalizer outputs. *)
Lemma final_values_ok rs a v :
  (foldl (key_step urandom) (AddStudyKey.harvest key_col rs, 0%nat) rs).1 !! a
    = Some v →
  normalized v ∧ v ≠ "".
Proof.
  intros [H|(_ & _ & j & _ & ->)]%key_fold_origin.
  - simpl in H. rewrite harvest_lookup in H.
    by destruct (first_key_Some _ _ _ _ H) as (_ & ? & ? & _).
  - split; [apply uuid4_normalized|apply uuid4_nonempty].
Qed.

(** The rows the run produces carry one key per accession. *)
Lemma written_rows_keyed (m : gmap string string) rs :
  (∀ r, r ∈ rs → accession_of r ≠ "" → is_Some (m !! accession_of r)) →
  (∀ a v, m !! a = Some v → normalized v ∧ v ≠ "") →
  keyed key_col
    (if decide (key_col = "Accession") then id else fun a => m !!! a)
    (written key_col m <$> rs).
Proof.
  intros Hcov Hok r' Hin Ha'.
  apply list_elem_of_fmap in Hin as (r & -> & Hin).
  destruct (decide (accession_of r = "")) as [Hb|Hb].
  { rewrite written_blank in Ha' by done. done. }
  destruct (Hcov r Hin Hb) as [v Hv]. destruct (Hok _ _ Hv) as [Hnorm Hne].
  rewrite written_keyed by done.
  rewrite (lookup_total_correct _ _ _ Hv).
  rewrite accession_of_insert_key by done. rewrite lookup_insert_eq.
  destruct (decide (key_col = "Accession")); simpl; [done|].
  by rewrite (lookup_total_correct _ _ _ Hv).
Qed.

Lemma keyed_harvest f rs r :
  keyed key_col f rs → r ∈ rs → accession_of r ≠ "" →
  AddStudyKey.harvest key_col rs !! accession_of r = Some (f (accession_of r)).
Proof.
  intros Hk Hin Ha. rewrite harvest_lookup.
  apply first_key_keyed; [done..|]. by exists r.
Qed.

(** On rows that already carry their keys the two loops change nothing
    and draw nothing. *)
Lemma keyed_fixed f rs :
  keyed key_col f rs →
  foldl (key_step urandom) (AddStudyKey.harvest key_col rs, 0%nat) rs
    = (AddStudyKey.harvest key_col rs, 0%nat)
  ∧ written key_col (AddStudyKey.harvest key_col rs) <$> rs = rs.
Proof.
  intros Hk. split.
  - apply key_fold_id. intros r Hin Ha. simpl.
    by rewrite (keyed_harvest f rs r).
  - transitivity (id <$> rs); [|apply list_fmap_id]. apply list_fmap_ext.
    intros i r Hi. simpl.
    assert (r ∈ rs) as Hin by (apply list_elem_of_lookup; eauto).
    destruct (decide (accession_of r = "")) as [Hb|Hb].
    { by apply written_blank. }
    rewrite written_keyed by done.
    rewrite (lookup_total_correct _ _ _ (keyed_harvest f rs r Hk Hin Hb)).
    apply insert_id. by destruct (Hk r Hin Hb) as [? _].
Qed.

End AssignKeys.

(** ** The key assigner: the properties of the specification *)

Example assign_keys_sample :
  (fun r => (row_get r "Accession", row_get r "Study_Key"))
    <$> rows (AddStudyKey.assign_keys zero_entropy "Study_Key" sample_keys)
  = [(PyStr "A", PyStr "K1"); (PyStr "A", PyStr "K1");
     (PyStr " ", PyStr "K3");
     (PyInt 5, PyStr "00000000-0000-4000-8000-000000000000")].
Proof. vm_compute. reflexivity. Qed.

Lemma assign_keys_rows urandom key_col df :
  rows (AddStudyKey.assign_keys urandom key_col df) =
  written key_col
    (foldl (key_step urandom)
       (AddStudyKey.harvest key_col
          (rows (AddStudyKey.ensure_key_column key_col df)), 0%nat)
       (rows (AddStudyKey.ensure_key_column key_col df))).1
  <$> rows (AddStudyKey.ensure_key_column key_col df).
Proof. unfold AddStudyKey.assign_keys. simpl. by rewrite run_passes_eq. Qed.

Lemma assign_keys_keyed urandom key_col df :
  ∃ f, keyed key_col f (rows (AddStudyKey.assign_keys urandom key_col df)).
Proof.
  eexists. rewrite assign_keys_rows. apply written_rows_keyed.
  - intros r Hin Ha. by apply key_fold_covers.
  - apply final_values_ok.
Qed.

(** A run of [main] that passes its guards saves the dataset of
    [assign_keys] over the workbook and prints one line. *)
Lemma main_saves (args : AddStudyKey.Args) (urandom : nat → N) (w : world)
    (df : DataFrame) :
  files w !! Path.to_string (Path.of_string (AddStudyKey.excel args))
    = Some (Workbook df) →
  "Accession" ∈ columns df →
  AddStudyKey.main args urandom w
  = (Return 0%Z,
     {| files :=
          <[Path.to_string (Path.of_string (AddStudyKey.excel args)) :=
              Workbook (AddStudyKey.assign_keys urandom
                          (AddStudyKey.key_column args) df)]> (files w);
        stdout :=
          stdout w
          ++ ["Updated " ++ Path.to_string (Path.of_string (AddStudyKey.excel args))
              ++ " with column " ++ AddStudyKey.key_column args ++ "."] |}).
Proof.
  intros Hfile Hcol.
  assert (path_exists w (Path.of_string (AddStudyKey.excel args)) = true)
    as Hexcel.
  { unfold path_exists. rewrite Hfile. by apply bool_decide_eq_true_2. }
  unfold AddStudyKey.main.
  cbv beta iota zeta delta [mbind io_bind exists_]. rewrite Hexcel.
  change (negb true) with false. cbv beta iota delta [read_excel].
  rewrite Hfile. cbv beta iota.
  rewrite bool_decide_eq_true_2 by done. reflexivity.
Qed.

Lemma assign_keys_columns urandom key_col df c :
  c ∈ columns df → c ∈ columns (AddStudyKey.assign_keys urandom key_col df).
Proof.
  intros H. unfold AddStudyKey.assign_keys, AddStudyKey.ensure_key_column.
  simpl. destruct (bool_decide (key_col ∈ columns df)) eqn:E; [done|].
  simpl. rewrite E. apply elem_of_app. by left.
Qed.

(** C1. Running the key assignment on the dataset that a first run
    produced returns that dataset unchanged, columns and every cell, and
    draws no new identifier: every record with an accession already holds
    a non-empty key, which the first loop harvests for its accession.
    Accordingly a second run of [main] on the workbook that the first run
    saved leaves every file as it was. *)
Theorem assign_keys_idempotent
    (urandom urandom' : nat → N) (key_col : string) (df : DataFrame) :
  let df1 := AddStudyKey.assign_keys urandom key_col df in
  AddStudyKey.assign_keys urandom' key_col df1 = df1
  ∧ AddStudyKey.draws (AddStudyKey.run_passes urandom' key_col df1) = 0%nat
  ∧ (∀ r, r ∈ rows df1 → accession_of r ≠ "" →
          key_of key_col r ≠ ""
          ∧ AddStudyKey.harvest key_col (rows df1) !! accession_of r
            = Some (key_of key_col r))
  ∧ (∀ (args : AddStudyKey.Args) (w : world),
       AddStudyKey.key_column args = key_col →
       files w !! Path.to_string (Path.of_string (AddStudyKey.excel args))
         = Some (Workbook df) →
       "Accession" ∈ columns df →
       ∃ w1 w2,
         AddStudyKey.main args urandom w = (Return 0%Z, w1)
         ∧ files w1 !! Path.to_string (Path.of_string (AddStudyKey.excel args))
           = Some (Workbook df1)
         ∧ AddStudyKey.main args urandom' w1 = (Return 0%Z, w2)
         ∧ files w2 = files w1).
Proof.
  intros df1. destruct (assign_keys_keyed urandom key_col df) as [f Hk].
  fold df1 in Hk.
  assert (AddStudyKey.ensure_key_column key_col df1 = df1) as Hens.
  { apply ensure_key_column_present. apply ensure_key_column_has_key. }
  destruct (keyed_fixed key_col urandom' f (rows df1) Hk) as [Hmd Hrows].
  assert (AddStudyKey.assign_keys urandom' key_col df1 = df1) as Hidem.
  { unfold AddStudyKey.assign_keys. rewrite run_passes_eq, Hens.
    cbv zeta. cbn [AddStudyKey.frame]. rewrite Hmd. cbn [fst].
    rewrite Hrows. by destruct df1. }
  split; [exact Hidem|]. split; [|split].
  - rewrite run_passes_eq, Hens. cbv zeta. cbn [AddStudyKey.draws].
    by rewrite Hmd.
  - intros r Hin Ha. destruct (Hk r Hin Ha) as (Hcell & Hnorm & Hne).
    assert (key_of key_col r = f (accession_of r)) as ->.
    { unfold key_of, row_get. rewrite Hcell. exact Hnorm. }
    split; [done|]. by apply keyed_harvest.
  - intros args w Hkc Hfile Hcol. subst key_col.
    eexists _, _. split; [by apply main_saves|].
    cbn [files]. split; [by rewrite lookup_insert_eq|]. split.
    + apply main_saves; cbn [files]; [by rewrite lookup_insert_eq|].
      by apply assign_keys_columns.
    + cbn [files]. fold df1. rewrite Hidem. by rewrite insert_insert_eq.
Qed.

(** C2, as stated, fails: of two records of one study that carry
    different keys, the second receives the key of the first. *)
Lemma key_preservation_fails : ¬ key_preservation_claim.
Proof.
  intros H.
  destruct (H zero_entropy "Study_Key" sample_keys 1%nat
              (key_row (PyStr "A") (PyStr "K2")))
    as (r' & Hr' & Hkey).
  - vm_compute. by right; left.
  - reflexivity.
  - vm_compute. discriminate.
  - vm_compute in Hr'. injection Hr' as <-. vm_compute in Hkey.
    discriminate Hkey.
Qed.

(** C2, amended. A record's non-empty key survives the run when the
    record has no accession, or when no earlier record of the same
    accession carries a different non-empty key; with an accession, the
    key cell then holds exactly the normalized key as text. *)
Theorem key_preserved_when_first
    (urandom : nat → N) (key_col : string) (df : DataFrame) (i : nat) (r : row) :
  key_col ∈ columns df →
  rows df !! i = Some r →
  key_of key_col r ≠ "" →
  (accession_of r = ""
   ∨ ∀ j r', (j < i)%nat → rows df !! j = Some r' →
             accession_of r' = accession_of r →
             key_of key_col r' = "" ∨ key_of key_col r' = key_of key_col r) →
  ∃ r', rows (AddStudyKey.assign_keys urandom key_col df) !! i = Some r'
        ∧ key_of key_col r' = key_of key_col r
        ∧ (accession_of r ≠ "" →
           r' = <[key_col := PyStr (key_of key_col r)]> r).
Proof.
  intros Hcol Hi Hkey Hfirst.
  rewrite assign_keys_rows, ensure_key_column_present by done.
  rewrite list_lookup_fmap, Hi. simpl. eexists. split; [reflexivity|].
  destruct (decide (accession_of r = "")) as [Hb|Hb].
  { rewrite written_blank by done. done. }
  destruct Hfirst as [?|Hfirst]; [done|].
  pose proof (first_key_at key_col (rows df) i r Hi Hb Hkey Hfirst) as Hfk.
  rewrite <- harvest_lookup in Hfk.
  pose proof (lookup_weaken _ _ _ _ Hfk
                (key_fold_subseteq urandom (rows df)
                   (AddStudyKey.harvest key_col (rows df), 0%nat))) as Hfin.
  rewrite written_keyed by done.
  rewrite (lookup_total_correct _ _ _ Hfin). split; [|done].
  unfold key_of at 1. rewrite row_get_insert.
  destruct (decide (key_col = key_col)); [|done].
  apply normalize_value_normalized.
Qed.

Lemma key_preserved_when_first_witness :
  ∃ r', rows (AddStudyKey.assign_keys zero_entropy "Study_Key" sample_keys)
          !! 0%nat = Some r'
        ∧ key_of "Study_Key" r' = key_of "Study_Key" (key_row (PyStr "A") (PyStr "K1"))
        ∧ (accession_of (key_row (PyStr "A") (PyStr "K1")) ≠ "" →
           r' = <["Study_Key" := PyStr (key_of "Study_Key" (key_row (PyStr "A") (PyStr "K1")))]>
                  (key_row (PyStr "A") (PyStr "K1"))).
Proof.
  apply (key_preserved_when_first zero_entropy "Study_Key" sample_keys 0%nat
           (key_row (PyStr "A") (PyStr "K1"))).
  - vm_compute. by right; left.
  - reflexivity.
  - vm_compute. discriminate.
  - right. intros j r' Hj. lia.
Defined.

(** C3. During one run every accession has at most one entry in the
    dictionary and an entry is never replaced: each step of either loop
    extends the dictionary. For an accession of the frame the final entry
    is the first non-empty normalized key that a record of that accession
    carries, in row order, and a freshly drawn identifier when there is
    none. After the run a record with an accession holds the entry of its
    accession, so records that share an accession hold the same key. *)
Theorem key_map_invariant
    (urandom : nat → N) (key_col : string) (df : DataFrame) :
  let df1 := AddStudyKey.ensure_key_column key_col df in
  let st := AddStudyKey.run_passes urandom key_col df in
  let out := AddStudyKey.assign_keys urandom key_col df in
  (∀ m it, m ⊆ AddStudyKey.harvest_step key_col m it)
  ∧ (∀ s it, AddStudyKey.accession_to_key s
             ⊆ AddStudyKey.accession_to_key
                 (AddStudyKey.fill_step key_col urandom s it))
  ∧ AddStudyKey.harvest key_col (rows df1) ⊆ AddStudyKey.accession_to_key st
  ∧ (∀ r, r ∈ rows df1 → accession_of r ≠ "" →
          ∃ v, AddStudyKey.accession_to_key st !! accession_of r = Some v
               ∧ v ≠ ""
               ∧ match first_key key_col (accession_of r) (rows df1) with
                 | Some v0 => v = v0
                 | None => ∃ j, (j < AddStudyKey.draws st)%nat
                                ∧ v = Uuid.uuid4 (urandom j)
                 end)
  ∧ (∀ i r, rows df1 !! i = Some r → accession_of r ≠ "" →
            rows out !! i
            = Some (<[key_col :=
                        PyStr (AddStudyKey.accession_to_key st
                                 !!! accession_of r)]> r))
  ∧ (∀ r1 r2, r1 ∈ rows out → r2 ∈ rows out →
              accession_of r1 ≠ "" → accession_of r1 = accession_of r2 →
              row_get r1 key_col = row_get r2 key_col).
Proof.
  intros df1 st out.
  split; [apply harvest_step_subseteq|].
  split; [apply fill_step_subseteq|].
  assert (AddStudyKey.accession_to_key st
          = (foldl (key_step urandom)
               (AddStudyKey.harvest key_col (rows df1), 0%nat) (rows df1)).1)
    as Hmap by (unfold st; by rewrite run_passes_eq).
  assert (AddStudyKey.draws st
          = (foldl (key_step urandom)
               (AddStudyKey.harvest key_col (rows df1), 0%nat) (rows df1)).2)
    as Hdraws by (unfold st; by rewrite run_passes_eq).
  split; [|split; [|split]].
  - rewrite Hmap.
    apply (key_fold_subseteq urandom (rows df1)
             (AddStudyKey.harvest key_col (rows df1), 0%nat)).
  - intros r Hin Ha. rewrite Hmap, Hdraws.
    destruct (key_fold_covers urandom (rows df1)
                (AddStudyKey.harvest key_col (rows df1), 0%nat) r Hin Ha)
      as [v Hv].
    exists v. split; [done|].
    split; [by destruct (final_values_ok _ _ _ _ _ Hv)|].
    destruct (key_fold_origin _ _ _ _ _ Hv) as [H|(H & _ & j & Hj & ->)];
      simpl in H; rewrite harvest_lookup in H; rewrite H; [done|].
    exists j. split; [lia|done].
  - intros i r Hi Ha. unfold out. rewrite assign_keys_rows. fold df1.
    rewrite list_lookup_fmap, Hi, Hmap. simpl. by rewrite written_keyed.
  - intros r1 r2 H1 H2 Ha Heq.
    destruct (assign_keys_keyed urandom key_col df) as [f Hk]. fold out in Hk.
    destruct (Hk r1 H1 Ha) as (Hc1 & _).
    destruct (Hk r2 H2) as (Hc2 & _); [congruence|].
    unfold row_get. by rewrite Hc1, Hc2, Heq.
Qed.

(** C9. A record whose accession cell is blank is skipped by both loops:
    the run leaves it as the loops found it. When the key column exists
    that is the record of the input, unchanged in every cell; when the run
    had to create the key column, the record only gained the empty key
    cell that every record receives, and every other cell is unchanged. *)
Theorem blank_accession_untouched
    (urandom : nat → N) (key_col : string) (df : DataFrame) (i : nat) (r : row) :
  rows df !! i = Some r →
  accession_of r = "" →
  rows (AddStudyKey.assign_keys urandom key_col df) !! i
    = rows (AddStudyKey.ensure_key_column key_col df) !! i
  ∧ rows (AddStudyKey.assign_keys urandom key_col df) !! i
    = Some (if bool_decide (key_col ∈ columns df) then r
            else <[key_col := PyStr ""]> r)
  ∧ ∃ r', rows (AddStudyKey.assign_keys urandom key_col df) !! i = Some r'
          ∧ (key_col ∈ columns df → r' = r)
          ∧ ∀ c, c ≠ key_col → r' !! c = r !! c.
Proof.
  intros Hi Hb.
  enough (rows (AddStudyKey.assign_keys urandom key_col df) !! i
          = rows (AddStudyKey.ensure_key_column key_col df) !! i
          ∧ rows (AddStudyKey.assign_keys urandom key_col df) !! i
            = Some (if bool_decide (key_col ∈ columns df) then r
                    else <[key_col := PyStr ""]> r)) as [H1 H2].
  { split; [exact H1|]. split; [exact H2|].
    eexists. split; [exact H2|]. split.
    - intros Hc. by rewrite bool_decide_eq_true_2.
    - intros c Hc. destruct (bool_decide (key_col ∈ columns df)); [done|].
      by rewrite lookup_insert_ne. }
  rewrite assign_keys_rows, list_lookup_fmap.
  assert (rows (AddStudyKey.ensure_key_column key_col df) !! i
          = Some (if bool_decide (key_col ∈ columns df) then r
                  else <[key_col := PyStr ""]> r)) as Hrow.
  { unfold AddStudyKey.ensure_key_column.
    destruct (bool_decide (key_col ∈ columns df)); [done|].
    simpl. by rewrite list_lookup_fmap, Hi. }
  rewrite Hrow. simpl. rewrite written_blank; [done|].
  destruct (bool_decide (key_col ∈ columns df)); [done|].
  rewrite accession_of_insert_key by apply normalized_empty.
  by destruct (decide (key_col = "Accession")).
Qed.

Lemma blank_accession_untouched_witness :
  rows (AddStudyKey.assign_keys zero_entropy "Study_Key" sample_keys) !! 2%nat
    = rows (AddStudyKey.ensure_key_column "Study_Key" sample_keys) !! 2%nat
  ∧ rows (AddStudyKey.assign_keys zero_entropy "Study_Key" sample_keys) !! 2%nat
    = Some (key_row (PyStr " ") (PyStr "K3")).
Proof.
  destruct (blank_accession_untouched zero_entropy "Study_Key" sample_keys 2%nat
              (key_row (PyStr " ") (PyStr "K3"))) as (H1 & H2 & _).
  - reflexivity.
  - reflexivity.
  - split; [exact H1|exact H2].
Defined.

(** ** The file validator: candidate paths and display name *)

Lemma length_lower s : String.length (Py.lower s) = String.length s.
Proof. induction s as [|c s IH]; simpl; congruence. Qed.

Lemma length_append (a b : string) :
  String.length (a ++ b) = (String.length a + String.length b)%nat.
Proof. induction a as [|c a IH]; simpl; [done|by rewrite IH]. Qed.

Lemma with_dcm_length value : (4 ≤ String.length (with_dcm value))%nat.
Proof.
  unfold with_dcm, Py.endswith.
  destruct (_ && _) eqn:E.
  - apply andb_true_iff in E as [E _]. apply Nat.leb_le in E.
    rewrite length_lower in E. exact E.
  - rewrite length_append. simpl. lia.
Qed.

Lemma has_sep_append a b : has_sep (a ++ b) = has_sep a || has_sep b.
Proof.
  induction a as [|c a IH]; simpl; [done|]. by rewrite IH, orb_assoc.
Qed.

Lemma with_dcm_has_sep value : has_sep (with_dcm value) = has_sep value.
Proof.
  unfold with_dcm. destruct (Py.endswith _ _); [done|].
  rewrite has_sep_append. simpl. apply orb_false_r.
Qed.

Lemma split_no_sep s : has_sep s = false → Path.split s = [s].
Proof.
  induction s as [|c s IH]; simpl; [done|].
  intros [Hc Hs]%orb_false_iff. by rewrite Hc, (IH Hs).
Qed.

(** A string of two characters or more without a separator is a single
    path component. *)
Lemma segments_no_sep s :
  has_sep s = false → (2 ≤ String.length s)%nat → Path.segments s = [s].
Proof.
  intros Hs Hlen. unfold Path.segments. rewrite (split_no_sep s Hs). simpl.
  destruct s as [|c [|d s]]; simpl in *; try lia.
  destruct (Ascii.eqb c "."); reflexivity.
Qed.

Lemma name_div_no_sep p s :
  has_sep s = false → (2 ≤ String.length s)%nat → Path.name (p // s) = s.
Proof.
  intros Hs Hlen. unfold Path.div, Path.name.
  destruct s as [|c s]; [simpl in Hlen; lia|].
  assert (Ascii.eqb c "/" = false) as Hc
    by (simpl in Hs; by apply orb_false_iff in Hs as [? _]).
  assert (Path.parts
            match String c s with
            | String "/"%char _ => Path.of_string (String c s)
            | _ => {| Path.root := Path.root p;
                      Path.parts := (Path.parts p ++ Path.segments (String c s))%list |}
            end
          = (Path.parts p ++ Path.segments (String c s))%list) as ->.
  { destruct c as [[|] [|] [|] [|] [|] [|] [|] [|]]; try reflexivity.
    discriminate Hc. }
  rewrite segments_no_sep by done. apply List.last_last.
Qed.

Lemma div_relative p c s :
  Ascii.eqb c "/" = false →
  p // String c s
  = {| Path.root := Path.root p;
       Path.parts := (Path.parts p ++ Path.segments (String c s))%list |}.
Proof.
  intros Hc. unfold Path.div.
  destruct c as [[|] [|] [|] [|] [|] [|] [|] [|]]; try reflexivity.
  discriminate Hc.
Qed.

Lemma split_nonempty s : Path.split s ≠ [].
Proof.
  destruct s as [|c s]; simpl; [done|].
  destruct (Ascii.eqb c "/"); [done|]. by destruct (Path.split s).
Qed.

Lemma last_cons_nonempty {A : Type} (x d : A) l :
  l ≠ [] → List.last (x :: l) d = List.last l d.
Proof. by destruct l. Qed.

Lemma last_app_nonempty {A : Type} (l1 l2 : list A) d :
  l2 ≠ [] → List.last (l1 ++ l2) d = List.last l2 d.
Proof.
  intros H. induction l1 as [|x l1 IH]; [done|].
  simpl app. rewrite last_cons_nonempty; [done|]. by destruct l1, l2.
Qed.

Lemma last_filter {A : Type} (f : A → bool) (l : list A) d :
  l ≠ [] → f (List.last l d) = true →
  List.last (List.filter f l) d = List.last l d.
Proof.
  induction l as [|x l IH]; intros Hne Hf; [done|].
  destruct l as [|y l].
  - simpl in *. by rewrite Hf.
  - rewrite last_cons_nonempty in Hf by done.
    rewrite (last_cons_nonempty x) by done.
    specialize (IH ltac:(done) Hf).
    change (List.filter f (x :: y :: l))
      with (if f x then x :: List.filter f (y :: l) else List.filter f (y :: l)).
    destruct (f x); [|done].
    rewrite last_cons_nonempty; [done|].
    intros Hnil. rewrite Hnil in IH. simpl in IH.
    assert (In (List.last (y :: l) d) (List.filter f (y :: l))) as Hin.
    { apply List.filter_In. split; [|done].
      apply (List.app_removelast_last d) in Hne as _.
      rewrite (List.app_removelast_last d (l:=y :: l)) at 2 by done.
      apply in_or_app. right. by left. }
    by rewrite Hnil in Hin.
Qed.

Lemma basename_leading_sep s : basename (String "/" s) = basename s.
Proof.
  unfold basename. simpl. apply last_cons_nonempty, split_nonempty.
Qed.

(** The last component of a string that ends in a character other than
    the separator ends in that character. *)
Lemma basename_snoc t c :
  Ascii.eqb c "/" = false → ∃ u, basename (t ++ String c "") = u ++ String c "".
Proof.
  intros Hc. unfold basename. induction t as [|a t [u IH]]; simpl.
  - rewrite Hc. by exists "".
  - destruct (Ascii.eqb a "/").
    + rewrite last_cons_nonempty by apply split_nonempty. by exists u.
    + destruct (Path.split (t ++ String c "")) as [|x xs] eqn:E.
      { by apply split_nonempty in E. }
      destruct xs as [|y xs].
      * simpl in IH. subst x. by exists (String a u).
      * rewrite last_cons_nonempty in IH by done.
        rewrite last_cons_nonempty by done. by exists u.
Qed.

Lemma segment_ok_snoc u c :
  Ascii.eqb c "." = false →
  negb (Py.is_empty (u ++ String c "")) && negb (String.eqb (u ++ String c "") ".")
  = true.
Proof.
  intros Hc. destruct u as [|a [|b u]]; simpl; [by rewrite Hc|..].
  - by destruct (Ascii.eqb a ".").
  - by destruct (Ascii.eqb a ".").
Qed.

(** The name of a joined path is the last component of the right operand
    when that operand ends in an ordinary character. *)
Lemma name_div_snoc p t c :
  Ascii.eqb c "/" = false → Ascii.eqb c "." = false →
  Path.name (p // (t ++ String c "")) = basename (t ++ String c "").
Proof.
  intros Hsep Hdot.
  assert (∀ s, (∃ u, basename s = u ++ String c "") →
               List.last (Path.segments s) "" = basename s) as Hseg.
  { intros s [u Hu]. unfold Path.segments. unfold basename in *.
    apply last_filter; [apply split_nonempty|].
    rewrite Hu. by apply segment_ok_snoc. }
  destruct t as [|a t].
  - change ("" ++ String c "") with (String c "").
    rewrite div_relative by done. unfold Path.name. simpl Path.parts.
    rewrite last_app_nonempty.
    + apply Hseg. apply (basename_snoc "" c Hsep).
    + unfold Path.segments. simpl. rewrite Hsep. simpl. by rewrite Hdot.
  - change (String a t ++ String c "") with (String a (t ++ String c "")).
    destruct (basename_snoc (String a t) c Hsep) as [u Hu].
    change (String a t ++ String c "") with (String a (t ++ String c "")) in Hu.
    assert (Path.segments (String a (t ++ String c "")) ≠ []) as Hne.
    { intros Hnil.
      pose proof (Hseg _ (ex_intro _ u Hu)) as H. rewrite Hnil, Hu in H.
      simpl in H. by destruct u. }
    destruct (Ascii.eqb_spec a "/") as [->|Ha].
    + unfold Path.div, Path.name, Path.of_string.
      destruct (basename_snoc t c Hsep) as [u' Hu'].
      destruct (t ++ String c "") as [|b r] eqn:Et; [by destruct t|].
      destruct (Ascii.eqb_spec b "/") as [->|Hb].
      * destruct r as [|b' r'].
        { simpl. rewrite !basename_leading_sep. reflexivity. }
        destruct (Ascii.eqb_spec b' "/") as [->|Hb'].
        -- simpl Path.splitroot. simpl Path.parts.
           rewrite Hseg; [by rewrite basename_leading_sep|].
           exists u'. exact Hu'.
        -- assert (Path.splitroot (String "/" (String "/" (String b' r')))
                   = ("//", String b' r')) as ->.
           { apply Ascii.eqb_neq in Hb'.
             destruct b' as [[|] [|] [|] [|] [|] [|] [|] [|]]; try reflexivity.
             discriminate Hb'. }
           simpl Path.parts. rewrite !basename_leading_sep.
           rewrite basename_leading_sep in Hu'.
           apply Hseg. by exists u'.
      * assert (Path.splitroot (String "/" (String b r)) = ("/", String b r))
          as ->.
        { apply Ascii.eqb_neq in Hb.
          destruct b as [[|] [|] [|] [|] [|] [|] [|] [|]]; try reflexivity.
          discriminate Hb. }
        simpl Path.parts. rewrite basename_leading_sep.
        apply Hseg. by exists u'.
    + apply Ascii.eqb_neq in Ha. rewrite div_relative by done.
      unfold Path.name. simpl Path.parts.
      rewrite last_app_nonempty by done. apply Hseg. by exists u.
Qed.

Lemma display_path_with_dcm base_dir accession value :
  CheckFiles.dcm_display_path base_dir accession value
  = base_dir // accession // with_dcm value.
Proof.
  unfold CheckFiles.dcm_display_path, with_dcm.
  by destruct (Py.endswith _ _).
Qed.

Lemma substring_full s : substring 0 (String.length s) s = s.
Proof. induction s as [|c s IH]; simpl; [done|]. by rewrite IH. Qed.

Lemma substring_split s : ∀ k,
  (k ≤ String.length s)%nat →
  s = substring 0 k s ++ substring k (String.length s - k) s.
Proof.
  induction s as [|c s IH]; intros k Hk.
  - simpl in Hk. by replace k with 0%nat by lia.
  - destruct k as [|k].
    + simpl. by rewrite substring_full.
    + simpl in *.
      change (String c s
              = String c (substring 0 k s
                          ++ substring k (String.length s - k) s)).
      f_equal. apply IH. lia.
Qed.

Lemma endswith_suffix s suffix :
  Py.endswith s suffix = true → ∃ pre, s = pre ++ suffix.
Proof.
  unfold Py.endswith. intros [Hlen Heq]%andb_true_iff.
  apply Nat.leb_le in Hlen. apply String.eqb_eq in Heq.
  pose proof (substring_split s (String.length s - String.length suffix)
                ltac:(lia)) as H.
  replace (String.length s - (String.length s - String.length suffix))%nat
    with (String.length suffix) in H by lia.
  rewrite Heq in H. eauto.
Qed.

Lemma lower_snoc_inv v : ∀ a d,
  Py.lower v = a ++ String d "" →
  ∃ t c, v = t ++ String c "" ∧ Py.lower_char c = d.
Proof.
  induction v as [|c v IH]; intros a d H.
  - by destruct a.
  - destruct a as [|b a]; simpl in H.
    + injection H as Hc Hv. destruct v; [|done]. by exists "", c.
    + injection H as _ Hv. destruct (IH _ _ Hv) as (t & c' & -> & Hc').
      by exists (String c t), c'.
Qed.

Lemma lower_char_m c :
  Py.lower_char c = "m"%char →
  Ascii.eqb c "/" = false ∧ Ascii.eqb c "." = false.
Proof.
  destruct c as [[|] [|] [|] [|] [|] [|] [|] [|]]; vm_compute;
    intros H; (discriminate H || (split; reflexivity)).
Qed.

Lemma append_assoc (a b c : string) : (a ++ b) ++ c = a ++ (b ++ c).
Proof.
  induction a as [|x a IH]; [reflexivity|].
  change (String x ((a ++ b) ++ c) = String x (a ++ (b ++ c))). by f_equal.
Qed.

(** The value with its extension ends in an ordinary character. *)
Lemma with_dcm_snoc value :
  ∃ t c, with_dcm value = t ++ String c ""
         ∧ Ascii.eqb c "/" = false ∧ Ascii.eqb c "." = false.
Proof.
  unfold with_dcm. destruct (Py.endswith (Py.lower value) ".dcm") eqn:E.
  - apply endswith_suffix in E as [pre Hpre].
    change ".dcm" with (".dc" ++ String "m" "") in Hpre.
    rewrite <- append_assoc in Hpre.
    destruct (lower_snoc_inv _ _ _ Hpre) as (t & c & -> & Hc).
    exists t, c. split; [done|]. by apply lower_char_m.
  - exists (value ++ ".dc"), "m"%char. split; [|done].
    by rewrite append_assoc.
Qed.

(** The display name is the text after the last separator of the value
    with its extension. *)
Lemma display_name_basename base_dir accession value :
  display_name base_dir accession value = basename (with_dcm value).
Proof.
  unfold display_name. rewrite display_path_with_dcm.
  destruct (with_dcm_snoc value) as (t & c & -> & Hsep & Hdot).
  by apply name_div_snoc.
Qed.

Example display_name_plain :
  display_name (Path.of_string "base") "A1" "IMG1" = "IMG1.dcm"
  ∧ display_name (Path.of_string "base") "A1" "IMG1.DCM" = "IMG1.DCM".
Proof. split; reflexivity. Qed.

(** C5, as stated, fails on a value with a directory part: the display
    name is the final path component only. *)
Lemma display_name_claim_fails : ¬ display_name_claim.
Proof.
  intros H.
  specialize (H (Path.of_string "base") "A1" "sub/IMG1").
  assert (display_name (Path.of_string "base") "A1" "sub/IMG1" = "IMG1.dcm")
    as Hname by reflexivity.
  rewrite Hname in H.
  assert ("IMG1.dcm" = with_dcm "sub/IMG1") as Habs
    by (apply H; (discriminate || reflexivity)).
  discriminate Habs.
Qed.

(** ** The file validator: the loops *)

Lemma add_lines_nil w : add_lines w [] = w.
Proof. destruct w. unfold add_lines. simpl. by rewrite app_nil_r. Qed.

Lemma add_lines_app w l1 l2 :
  add_lines (add_lines w l1) l2 = add_lines w (l1 ++ l2).
Proof. unfold add_lines. simpl. by rewrite app_assoc. Qed.

Lemma path_exists_add_lines w lines p :
  path_exists (add_lines w lines) p = path_exists w p.
Proof. reflexivity. Qed.

Lemma cell_found_add_lines w lines base_dir accession value :
  cell_found (add_lines w lines) base_dir accession value
  = cell_found w base_dir accession value.
Proof. reflexivity. Qed.

Lemma column_result_add_lines w lines base_dir accession r st c :
  column_result (add_lines w lines) base_dir accession r st c
  = column_result w base_dir accession r st c.
Proof. reflexivity. Qed.

Lemma row_result_add_lines w lines base_dir st r :
  row_result (add_lines w lines) base_dir st r = row_result w base_dir st r.
Proof. reflexivity. Qed.

(** A loop whose body computes its result from the files alone and only
    prints does the same as a whole. *)
Lemma foldM_pure {A B : Type} (f : B → A → IO B) (g : world → B → A → B) :
  (∀ w lines b x, g (add_lines w lines) b x = g w b x) →
  (∀ b x w, ∃ lines, f b x w = (Return (g w b x), add_lines w lines)) →
  ∀ l b w, ∃ lines,
    foldM f b l w = (Return (foldl (g w) b l), add_lines w lines).
Proof.
  intros Hg Hf l. induction l as [|x l IH]; intros b w.
  - exists []. simpl. by rewrite add_lines_nil.
  - destruct (Hf b x w) as [l1 H1].
    destruct (IH (g w b x) (add_lines w l1)) as [l2 H2].
    exists (l1 ++ l2)%list. simpl. unfold mbind, io_bind. rewrite H1, H2.
    rewrite add_lines_app. do 2 f_equal.
    assert (∀ l' b', foldl (g (add_lines w l1)) b' l' = foldl (g w) b' l')
      as Hfold.
    { induction l' as [|y l' IH']; intros b'; simpl; [done|].
      by rewrite Hg, IH'. }
    apply Hfold.
Qed.

Lemma check_column_pure base_dir accession r st column w :
  ∃ lines,
    CheckFiles.check_column base_dir accession r st column w
    = (Return (column_result w base_dir accession r st column),
       add_lines w lines).
Proof.
  unfold CheckFiles.check_column, column_result. cbv zeta.
  fold (image_value r column).
  destruct (Py.is_empty (image_value r column)).
  { exists []. by rewrite add_lines_nil. }
  unfold mbind, io_bind, CheckFiles.any_exists.
  fold (cell_found w base_dir accession (image_value r column)).
  destruct (cell_found w base_dir accession (image_value r column)).
  - exists []. simpl. by rewrite add_lines_nil.
  - eexists [_]. reflexivity.
Qed.

Lemma check_columns_pure base_dir accession r st columns w :
  ∃ lines,
    foldM (CheckFiles.check_column base_dir accession r) st columns w
    = (Return (foldl (column_result w base_dir accession r) st columns),
       add_lines w lines).
Proof.
  apply (foldM_pure _ (fun w => column_result w base_dir accession r)).
  - reflexivity.
  - intros. apply check_column_pure.
Qed.

Lemma check_row_pure base_dir st it w :
  ∃ lines,
    CheckFiles.check_row base_dir st it w
    = (Return (row_result w base_dir st it.2), add_lines w lines).
Proof.
  unfold CheckFiles.check_row, row_result. cbv zeta.
  change (CheckFiles.normalize_value (row_get it.2 "Accession"))
    with (accession_of it.2).
  destruct (Py.is_empty (accession_of it.2)).
  { exists []. by rewrite add_lines_nil. }
  unfold mbind, io_bind.
  edestruct (check_columns_pure base_dir (accession_of it.2) it.2) as [lines ->].
  exists lines. reflexivity.
Qed.

Lemma foldl_imap_snd {B : Type} (g : B → row → B) rs :
  ∀ (h : nat → row → nat * row) b,
    (∀ i r, (h i r).2 = r) →
    foldl (fun b (it : nat * row) => g b it.2) b (imap h rs) = foldl g b rs.
Proof.
  induction rs as [|r rs IH]; intros h b Hh; [done|].
  rewrite imap_cons. simpl. rewrite Hh. apply IH. intros. apply Hh.
Qed.

Lemma foldl_iterrows {B : Type} (g : B → row → B) rs b :
  foldl (fun b (it : nat * row) => g b it.2) b (iterrows rs) = foldl g b rs.
Proof. by apply foldl_imap_snd. Qed.

(** The outer loop never raises, changes no file, and computes the state
    that the row-by-row reading gives. *)
Lemma check_rows_pure base_dir rs st w :
  ∃ lines,
    foldM (CheckFiles.check_row base_dir) st (iterrows rs) w
    = (Return (foldl (row_result w base_dir) st rs), add_lines w lines).
Proof.
  destruct (foldM_pure (CheckFiles.check_row base_dir)
              (fun w st (it : nat * row) => row_result w base_dir st it.2)
              ltac:(reflexivity)
              ltac:(intros; apply check_row_pure)
              (iterrows rs) st w) as [lines H].
  exists lines. rewrite H. by rewrite foldl_iterrows.
Qed.

(** C5, amended. For a non-empty image value the sole candidate is
    [base_dir/accession/value] when the value ends in ".dcm" in any letter
    case, and otherwise the candidates are the value with ".dcm" appended
    and the value itself, in that order; the column is found exactly when
    some candidate exists, and then the output cell receives the display
    name, else one diagnostic is printed and the error counter grows. The
    display name is the final component of the path of the value with
    ".dcm" appended when absent, that is the text after its last path
    separator; it is that whole string when the value contains no path
    separator. *)
Theorem candidate_resolution
    (base_dir : Path.t) (accession value : string) :
  value ≠ "" →
  (Py.endswith (Py.lower value) ".dcm" = true →
   CheckFiles.candidate_paths base_dir accession value
   = [base_dir // accession // value])
  ∧ (Py.endswith (Py.lower value) ".dcm" = false →
     CheckFiles.candidate_paths base_dir accession value
     = [base_dir // accession // (value ++ ".dcm");
        base_dir // accession // value])
  ∧ (∀ w r st column,
       image_value r column = value →
       CheckFiles.check_column base_dir accession r st column w
       = if existsb (path_exists w)
              (CheckFiles.candidate_paths base_dir accession value)
         then (Return
                 (CheckFiles.mkRowState (CheckFiles.errors st)
                    (S (CheckFiles.checked st))
                    (<[column := display_name base_dir accession value]>
                       (CheckFiles.out_row st))), w)
         else (Return
                 (CheckFiles.mkRowState (S (CheckFiles.errors st))
                    (S (CheckFiles.checked st)) (CheckFiles.out_row st)),
               add_lines w
                 ["ERROR: Missing file for Accession " ++ accession
                  ++ " (" ++ column ++ "): "
                  ++ display_name base_dir accession value]))
  ∧ display_name base_dir accession value
    = Path.name (base_dir // accession // with_dcm value)
  ∧ display_name base_dir accession value = basename (with_dcm value)
  ∧ (has_sep value = false →
     display_name base_dir accession value = with_dcm value).
Proof.
  intros Hne. split; [|split; [|split; [|split; [|split]]]].
  - intros H. unfold CheckFiles.candidate_paths. by rewrite H.
  - intros H. unfold CheckFiles.candidate_paths. by rewrite H.
  - intros w r st column Hv. unfold CheckFiles.check_column. cbv zeta.
    fold (image_value r column). rewrite Hv.
    apply is_empty_false in Hne. rewrite Hne.
    unfold mbind, io_bind, CheckFiles.any_exists.
    fold (display_name base_dir accession value).
    by destruct (existsb _ _).
  - unfold display_name. by rewrite display_path_with_dcm.
  - apply display_name_basename.
  - intros Hs. unfold display_name. rewrite display_path_with_dcm.
    apply name_div_no_sep.
    + by rewrite with_dcm_has_sep.
    + pose proof (with_dcm_length value). lia.
Qed.

Lemma candidate_resolution_witness :
  CheckFiles.candidate_paths (Path.of_string "base") "A1" "IMG1"
  = [Path.of_string "base" // "A1" // ("IMG1" ++ ".dcm");
     Path.of_string "base" // "A1" // "IMG1"]
  ∧ display_name (Path.of_string "base") "A1" "IMG1" = with_dcm "IMG1".
Proof.
  destruct (candidate_resolution (Path.of_string "base") "A1" "IMG1")
    as (_ & Hc & _ & _ & _ & Hd); [discriminate|].
  split; [apply Hc|apply Hd]; reflexivity.
Defined.

(** ** The file validator: counters and output rows *)

Lemma columns_fold_counts w base_dir accession r columns : ∀ st,
  let st' := foldl (column_result w base_dir accession r) st columns in
  CheckFiles.checked st'
  = (CheckFiles.checked st
     + length (List.filter (fun c => negb (Py.is_empty (image_value r c)))
                 columns))%nat
  ∧ CheckFiles.errors st'
    = (CheckFiles.errors st
       + length (List.filter
                   (fun c => negb (cell_found w base_dir accession
                                     (image_value r c)))
                   (List.filter (fun c => negb (Py.is_empty (image_value r c)))
                      columns)))%nat.
Proof.
  induction columns as [|c columns IH]; intros st; simpl; [lia|].
  destruct (IH (column_result w base_dir accession r st c)) as [-> ->].
  unfold column_result. cbv zeta.
  destruct (Py.is_empty (image_value r c)); simpl; [lia|].
  destruct (cell_found w base_dir accession (image_value r c)); simpl; lia.
Qed.

Lemma columns_fold_out_row w base_dir accession r columns : ∀ st1 st2,
  CheckFiles.out_row st1 = CheckFiles.out_row st2 →
  CheckFiles.out_row (foldl (column_result w base_dir accession r) st1 columns)
  = CheckFiles.out_row (foldl (column_result w base_dir accession r) st2 columns).
Proof.
  induction columns as [|c columns IH]; intros st1 st2 H; simpl; [done|].
  apply IH. unfold column_result. cbv zeta.
  destruct (Py.is_empty _); [done|]. destruct (cell_found _ _ _ _); simpl; congruence.
Qed.

Lemma columns_fold_other w base_dir accession r columns c : ∀ st,
  c ∉ columns →
  CheckFiles.out_row (foldl (column_result w base_dir accession r) st columns)
    !! c = CheckFiles.out_row st !! c.
Proof.
  induction columns as [|c0 columns IH]; intros st Hc; simpl; [done|].
  apply not_elem_of_cons in Hc as [Hne Hc]. rewrite IH by done.
  unfold column_result. cbv zeta.
  destruct (Py.is_empty _); [done|]. destruct (cell_found _ _ _ _); simpl; [|done].
  by rewrite lookup_insert_ne.
Qed.

(** When no image column holds a value the inner loop changes nothing. *)
Lemma columns_fold_blank w base_dir accession r columns : ∀ st,
  (∀ c, c ∈ columns → image_value r c = "") →
  foldl (column_result w base_dir accession r) st columns = st.
Proof.
  induction columns as [|c columns IH]; intros st H; simpl; [done|].
  assert (column_result w base_dir accession r st c = st) as ->.
  { unfold column_result. cbv zeta. rewrite (H c) by by left. done. }
  apply IH. intros c' Hc'. apply H. by right.
Qed.

Lemma new_out_row_accession accession :
  CheckFiles.new_out_row accession !! "Accession" = Some accession.
Proof.
  unfold CheckFiles.new_out_row. simpl.
  repeat rewrite lookup_insert_ne by done. apply lookup_singleton_eq.
Qed.

Lemma expected_out_row_accession w base_dir r :
  expected_out_row w base_dir r !! "Accession" = Some (accession_of r).
Proof.
  unfold expected_out_row. rewrite columns_fold_other.
  - apply new_out_row_accession.
  - unfold CheckFiles.columns_to_check. intros H.
    repeat (apply elem_of_cons in H as [H|H]; [discriminate H|]).
    by apply elem_of_nil in H.
Qed.

Lemma row_result_blank w base_dir st r :
  accession_of r = "" → row_result w base_dir st r = st.
Proof. intros H. unfold row_result. by rewrite H. Qed.

Lemma row_result_keyed w base_dir st r :
  accession_of r ≠ "" →
  row_result w base_dir st r
  = CheckFiles.mkLoop
      (CheckFiles.error_count st + length (missing_cells w base_dir r))
      (CheckFiles.checked_count st + length (checked_cells r))
      (CheckFiles.out_rows st ++ [expected_out_row w base_dir r]).
Proof.
  intros H%is_empty_false. unfold row_result. rewrite H. cbv zeta.
  destruct (columns_fold_counts w base_dir (accession_of r) r
              CheckFiles.columns_to_check
              (CheckFiles.mkRowState (CheckFiles.error_count st)
                 (CheckFiles.checked_count st)
                 (CheckFiles.new_out_row (accession_of r)))) as [Hc He].
  cbv zeta in Hc, He. rewrite Hc, He. simpl CheckFiles.checked.
  simpl CheckFiles.errors. f_equal. f_equal. f_equal.
  unfold expected_out_row. by apply columns_fold_out_row.
Qed.

(** The outer loop, row by row: the counters and the collected rows. *)
Lemma rows_fold_spec w base_dir rs : ∀ st,
  foldl (row_result w base_dir) st rs
  = CheckFiles.mkLoop
      (CheckFiles.error_count st + expected_missing w base_dir rs)
      (CheckFiles.checked_count st + expected_checked rs)
      (CheckFiles.out_rows st
       ++ (expected_out_row w base_dir <$> with_accession rs)).
Proof.
  unfold expected_missing, expected_checked, with_accession.
  induction rs as [|r rs IH]; intros st.
  - simpl. rewrite !Nat.add_0_r, app_nil_r. by destruct st.
  - simpl foldl. rewrite IH. simpl List.filter.
    destruct (decide (accession_of r = "")) as [Hb|Hb].
    + rewrite row_result_blank by done. by rewrite Hb.
    + rewrite row_result_keyed by done. apply is_empty_false in Hb as ->.
      simpl. rewrite <- !app_assoc, <- !Nat.add_assoc. reflexivity.
Qed.

Lemma required_present (df : DataFrame) :
  (∀ c, c ∈ CheckFiles.required_columns → c ∈ columns df) →
  List.filter (fun c => negb (bool_decide (c ∈ columns df)))
    CheckFiles.required_columns = [].
Proof.
  intros H. induction CheckFiles.required_columns as [|c cs IH]; [done|].
  simpl. rewrite bool_decide_eq_true_2 by (apply H; by left). simpl.
  apply IH. intros c' Hc'. apply H. by right.
Qed.

(** A run of [main] that passes its guards returns, with the exit status
    and the world that the row-by-row reading of its loop determines. *)
Lemma main_run args w df :
  ready args w df →
  ∃ lines,
    let st :=
      foldl (row_result w (Path.of_string (CheckFiles.base_dir args)))
        (CheckFiles.mkLoop 0 0 []) (rows df) in
    CheckFiles.main args w
    = (Return (if (0 <? CheckFiles.error_count st)%nat then 1%Z else 0%Z),
       final_world args w st lines).
Proof.
  intros (Hfile & Hbase & Hcols).
  destruct (check_rows_pure (Path.of_string (CheckFiles.base_dir args))
              (rows df) (CheckFiles.mkLoop 0 0 []) w) as [lines Hloop].
  assert (path_exists w (Path.of_string (CheckFiles.excel args)) = true)
    as Hexcel.
  { unfold path_exists. rewrite Hfile. by apply bool_decide_eq_true_2. }
  exists lines. cbv zeta. unfold CheckFiles.main.
  cbv beta iota zeta delta [mbind io_bind exists_]. rewrite Hexcel.
  change (negb true) with false. cbv beta iota. rewrite Hbase.
  change (negb true) with false. cbv beta iota delta [read_excel].
  rewrite Hfile.
  cbv beta iota. rewrite (required_present df Hcols).
  cbv beta iota. rewrite Hloop. unfold final_world. cbv zeta.
  set (st := foldl _ _ (rows df)).
  destruct (CheckFiles.out_rows st) eqn:Hout;
    destruct (0 <? CheckFiles.error_count st)%nat;
    unfold to_csv, print, mret, io_ret, add_lines; simpl;
    rewrite <- ?app_assoc; reflexivity.
Qed.

(** ** The file validator: the properties of the specification *)

Example main_sample :
  CheckFiles.main sample_args sample_world
  = (Return 1%Z,
     {| files :=
          <["found_files.csv" :=
              CsvFile {| header := output_header;
                         records := [["A1"; "IMG1.dcm"; ""; ""; "IMG2.DCM"; ""; ""];
                                     ["A2"; ""; ""; ""; ""; ""; ""];
                                     ["3"; ""; ""; ""; ""; ""; ""]] |}]>
            (files sample_world);
        stdout :=
          ["ERROR: Missing file for Accession 3 (AP_1): scan.dcm";
           "Wrote 3 rows (2 found filenames) to found_files.csv.";
           "Checked 3 AP/Lateral entries.";
           "Found 1 missing file(s)."] |}).
Proof. vm_compute. reflexivity. Qed.

Lemma ready_sample : ready sample_args sample_world sample_images.
Proof.
  split; [reflexivity|]. split; [reflexivity|].
  intros c Hc. unfold CheckFiles.required_columns, CheckFiles.columns_to_check in Hc.
  repeat (apply elem_of_cons in Hc as [->|Hc];
          [unfold sample_images; simpl;
           repeat first [apply list_elem_of_here | apply list_elem_of_further]|]).
  by apply elem_of_nil in Hc.
Defined.

(** C6. On a run that reaches the loop, the checked count is the number
    of pairs of a record with an accession and an image column whose
    normalized value is non-empty, whatever the file system holds; the
    error count is the number of those pairs without any candidate file;
    and [main] returns 1 exactly when the error count is positive and 0
    otherwise, after printing the checked count. *)
Theorem counts_and_exit_status
    (args : CheckFiles.Args) (w : world) (df : DataFrame) :
  ready args w df →
  let base := Path.of_string (CheckFiles.base_dir args) in
  ∃ st w1 code w2,
    foldM (CheckFiles.check_row base) (CheckFiles.mkLoop 0 0 [])
      (iterrows (rows df)) w = (Return st, w1)
    ∧ CheckFiles.checked_count st = expected_checked (rows df)
    ∧ CheckFiles.error_count st = expected_missing w base (rows df)
    ∧ CheckFiles.main args w = (Return code, w2)
    ∧ (code = 1%Z ↔ (0 < CheckFiles.error_count st)%nat)
    ∧ (code = 0%Z ↔ CheckFiles.error_count st = 0%nat)
    ∧ In ("Checked " ++ CheckFiles.str_nat (expected_checked (rows df))
          ++ " AP/Lateral entries.") (stdout w2).
Proof.
  intros Hready base.
  destruct (check_rows_pure base (rows df) (CheckFiles.mkLoop 0 0 []) w)
    as [lines Hloop].
  destruct (main_run args w df Hready) as [lines' Hmain].
  cbv zeta in Hmain. fold base in Hmain.
  rewrite rows_fold_spec in Hloop, Hmain. simpl in Hloop, Hmain.
  eexists _, _, _, _. split; [exact Hloop|]. simpl.
  split; [done|]. split; [done|]. split; [exact Hmain|].
  split; [|split].
  - destruct (Nat.ltb_spec 0 (expected_missing w base (rows df)));
      split; (done || lia).
  - destruct (Nat.ltb_spec 0 (expected_missing w base (rows df)));
      split; (done || lia).
  - unfold final_world. cbv zeta. simpl. apply in_or_app. right. by left.
Qed.

Lemma counts_and_exit_status_witness :
  ∃ st w1 code w2,
    foldM (CheckFiles.check_row (Path.of_string (CheckFiles.base_dir sample_args)))
      (CheckFiles.mkLoop 0 0 []) (iterrows (rows sample_images)) sample_world
    = (Return st, w1)
    ∧ CheckFiles.checked_count st = expected_checked (rows sample_images)
    ∧ CheckFiles.error_count st
      = expected_missing sample_world
          (Path.of_string (CheckFiles.base_dir sample_args)) (rows sample_images)
    ∧ CheckFiles.main sample_args sample_world = (Return code, w2)
    ∧ (code = 1%Z ↔ (0 < CheckFiles.error_count st)%nat)
    ∧ (code = 0%Z ↔ CheckFiles.error_count st = 0%nat)
    ∧ In ("Checked " ++ CheckFiles.str_nat (expected_checked (rows sample_images))
          ++ " AP/Lateral entries.") (stdout w2).
Proof.
  exact (counts_and_exit_status sample_args sample_world sample_images ready_sample).
Defined.

Lemma select_records labels out_rows :
  records (CheckFiles.select labels out_rows)
  = (fun r : gmap string string => (fun c => default "" (r !! c)) <$> labels)
      <$> out_rows.
Proof. reflexivity. Qed.

Lemma with_accession_app rs1 rs2 :
  with_accession (rs1 ++ rs2) = (with_accession rs1 ++ with_accession rs2)%list.
Proof. apply List.filter_app. Qed.

(** The file [main] writes when some record has an accession. *)
Lemma main_writes args w df :
  ready args w df →
  with_accession (rows df) ≠ [] →
  ∃ code w2,
    CheckFiles.main args w = (Return code, w2)
    ∧ files w2 !! Path.to_string (Path.of_string (CheckFiles.out_csv args))
      = Some (CsvFile
                (CheckFiles.select output_header
                   (expected_out_row w
                      (Path.of_string (CheckFiles.base_dir args))
                    <$> with_accession (rows df))))
    ∧ In ("Wrote " ++ CheckFiles.str_nat (length (with_accession (rows df)))
          ++ " rows ("
          ++ CheckFiles.str_nat
               (CheckFiles.found_count
                  (expected_out_row w
                     (Path.of_string (CheckFiles.base_dir args))
                   <$> with_accession (rows df)))
          ++ " found filenames) to "
          ++ Path.to_string (Path.of_string (CheckFiles.out_csv args)) ++ ".")
         (stdout w2).
Proof.
  intros Hready Hrows.
  destruct (main_run args w df Hready) as [lines Hmain].
  cbv zeta in Hmain. rewrite rows_fold_spec in Hmain. simpl in Hmain.
  eexists _, _. split; [exact Hmain|].
  unfold final_world. cbv zeta. simpl CheckFiles.out_rows.
  rewrite <- (length_fmap (expected_out_row w
                             (Path.of_string (CheckFiles.base_dir args)))
                (with_accession (rows df))).
  remember (expected_out_row w (Path.of_string (CheckFiles.base_dir args))
            <$> with_accession (rows df)) as out eqn:Hout.
  destruct out as [|o out].
  { symmetry in Hout. by apply fmap_nil_inv in Hout. }
  simpl. split.
  - by rewrite lookup_insert_eq.
  - apply in_or_app. left. apply in_or_app. right. by left.
Qed.

(** C7. Whenever some record has an accession, the file written has the
    header [Accession, AP_1, AP_2, AP_3, Lateral_1, Lateral_2, Lateral_3],
    whatever the order of the columns of the input, and one line per
    record with a non-empty accession, in row order: the line starts with
    the record's accession and has six more cells. *)
Theorem output_shape (args : CheckFiles.Args) (w : world) (df : DataFrame) :
  ready args w df →
  with_accession (rows df) ≠ [] →
  ∃ code w2 t,
    CheckFiles.main args w = (Return code, w2)
    ∧ files w2 !! Path.to_string (Path.of_string (CheckFiles.out_csv args))
      = Some (CsvFile t)
    ∧ header t = ["Accession"; "AP_1"; "AP_2"; "AP_3";
                  "Lateral_1"; "Lateral_2"; "Lateral_3"]
    ∧ length (records t) = length (with_accession (rows df))
    ∧ ∀ i r, with_accession (rows df) !! i = Some r →
             ∃ cells, records t !! i = Some (accession_of r :: cells)
                      ∧ length cells = 6%nat.
Proof.
  intros Hready Hrows.
  destruct (main_writes args w df Hready Hrows) as (code & w2 & Hmain & Hfile & _).
  eexists _, _, _. split; [exact Hmain|]. split; [exact Hfile|].
  split; [reflexivity|]. rewrite select_records. split.
  - by rewrite !length_fmap.
  - intros i r Hi. rewrite !list_lookup_fmap, Hi. simpl.
    rewrite expected_out_row_accession. simpl. eexists. split; reflexivity.
Qed.

Lemma output_shape_witness :
  ∃ code w2 t,
    CheckFiles.main sample_args sample_world = (Return code, w2)
    ∧ files w2 !! Path.to_string (Path.of_string (CheckFiles.out_csv sample_args))
      = Some (CsvFile t)
    ∧ header t = ["Accession"; "AP_1"; "AP_2"; "AP_3";
                  "Lateral_1"; "Lateral_2"; "Lateral_3"]
    ∧ length (records t) = length (with_accession (rows sample_images))
    ∧ ∀ i r, with_accession (rows sample_images) !! i = Some r →
             ∃ cells, records t !! i = Some (accession_of r :: cells)
                      ∧ length cells = 6%nat.
Proof.
  apply (output_shape sample_args sample_world sample_images ready_sample).
  vm_compute. discriminate.
Defined.

Lemma check_columns_blank base_dir accession r columns : ∀ st w,
  (∀ c, c ∈ columns → image_value r c = "") →
  foldM (CheckFiles.check_column base_dir accession r) st columns w
  = (Return st, w).
Proof.
  induction columns as [|c columns IH]; intros st w H; [done|].
  simpl. unfold mbind, io_bind.
  assert (CheckFiles.check_column base_dir accession r st c w = (Return st, w))
    as ->.
  { unfold CheckFiles.check_column. cbv zeta. fold (image_value r c).
    rewrite (H c) by by left. done. }
  apply IH. intros c' Hc'. apply H. by right.
Qed.

Lemma new_out_row_cells accession :
  (fun c => default "" (CheckFiles.new_out_row accession !! c)) <$> output_header
  = [accession; ""; ""; ""; ""; ""; ""].
Proof.
  unfold CheckFiles.new_out_row, output_header. simpl.
  repeat (rewrite ?lookup_insert_eq, ?lookup_insert_ne by done).
  rewrite lookup_singleton_eq. reflexivity.
Qed.

(** C10. A record with an accession whose six image columns are all
    blank still yields an output row, its accession followed by six empty
    cells: the loop body appends that row and leaves both counters, the
    files and the console as they were; the row is a line of the file
    written and is counted in the summary that [main] prints. *)
Theorem blank_images_row
    (args : CheckFiles.Args) (w : world) (df : DataFrame) (i : nat) (r : row) :
  ready args w df →
  rows df !! i = Some r →
  accession_of r ≠ "" →
  (∀ c, c ∈ CheckFiles.columns_to_check → image_value r c = "") →
  (∀ st idx w',
     CheckFiles.check_row (Path.of_string (CheckFiles.base_dir args)) st (idx, r) w'
     = (Return (CheckFiles.mkLoop (CheckFiles.error_count st)
                  (CheckFiles.checked_count st)
                  (CheckFiles.out_rows st
                   ++ [CheckFiles.new_out_row (accession_of r)])), w'))
  ∧ ∃ code w2 t,
      CheckFiles.main args w = (Return code, w2)
      ∧ files w2 !! Path.to_string (Path.of_string (CheckFiles.out_csv args))
        = Some (CsvFile t)
      ∧ records t !! length (with_accession (take i (rows df)))
        = Some [accession_of r; ""; ""; ""; ""; ""; ""]
      ∧ (length (with_accession (take i (rows df))) < length (records t))%nat
      ∧ In ("Wrote " ++ CheckFiles.str_nat (length (records t)) ++ " rows ("
            ++ CheckFiles.str_nat
                 (CheckFiles.found_count
                    (expected_out_row w
                       (Path.of_string (CheckFiles.base_dir args))
                     <$> with_accession (rows df)))
            ++ " found filenames) to "
            ++ Path.to_string (Path.of_string (CheckFiles.out_csv args)) ++ ".")
           (stdout w2).
Proof.
  intros Hready Hi Ha Hblank. split.
  - intros st idx w'. unfold CheckFiles.check_row. cbv zeta.
    change ((idx, r).2) with r.
    change (CheckFiles.normalize_value (row_get r "Accession"))
      with (accession_of r).
    apply is_empty_false in Ha as ->. unfold mbind, io_bind.
    by rewrite check_columns_blank.
  - assert (rows df = take i (rows df) ++ r :: drop (S i) (rows df))%list as Hsplit
      by (symmetry; by apply take_drop_middle).
    assert (with_accession (rows df)
            = with_accession (take i (rows df))
              ++ r :: with_accession (drop (S i) (rows df)))%list as Hwa.
    { rewrite Hsplit at 1. rewrite with_accession_app. f_equal.
      unfold with_accession. simpl. apply is_empty_false in Ha. by rewrite Ha. }
    destruct (main_writes args w df Hready) as (code & w2 & Hmain & Hfile & Hline).
    { rewrite Hwa. by destruct (with_accession (take i (rows df))). }
    eexists _, _, _. split; [exact Hmain|]. split; [exact Hfile|].
    rewrite select_records, !length_fmap. split; [|split; [|exact Hline]].
    + assert (with_accession (rows df)
                !! length (with_accession (take i (rows df))) = Some r) as Hk.
      { rewrite Hwa, lookup_app_r by lia. by rewrite Nat.sub_diag. }
      rewrite !list_lookup_fmap, Hk.
      change (Some ((fun c => default ""
                       (expected_out_row w
                          (Path.of_string (CheckFiles.base_dir args)) r !! c))
                    <$> output_header)
              = Some [accession_of r; ""; ""; ""; ""; ""; ""]).
      f_equal. unfold expected_out_row. rewrite columns_fold_blank by done.
      cbn [CheckFiles.out_row]. apply new_out_row_cells.
    + rewrite Hwa, length_app. simpl. lia.
Qed.

Lemma blank_images_row_witness :
  ∃ code w2 t,
    CheckFiles.main sample_args sample_world = (Return code, w2)
    ∧ files w2 !! Path.to_string (Path.of_string (CheckFiles.out_csv sample_args))
      = Some (CsvFile t)
    ∧ records t !! 1%nat = Some ["A2"; ""; ""; ""; ""; ""; ""].
Proof.
  destruct (blank_images_row sample_args sample_world sample_images 1%nat
              (image_row (PyStr "A2") (PyFloat NaN) (PyFloat NaN)) ready_sample)
    as (_ & code & w2 & t & Hmain & Hfile & Hrec & _).
  - reflexivity.
  - vm_compute. discriminate.
  - intros c Hc. unfold CheckFiles.columns_to_check in Hc.
    repeat (apply elem_of_cons in Hc as [->|Hc]; [reflexivity|]).
    by apply elem_of_nil in Hc.
  - exists code, w2, t. split; [exact Hmain|]. split; [exact Hfile|exact Hrec].
Defined.

(** ** Missing columns *)

Lemma missing_filter_nonempty (df : DataFrame) c :
  c ∈ CheckFiles.required_columns → c ∉ columns df →
  ∃ x xs, List.filter (fun c => negb (bool_decide (c ∈ columns df)))
            CheckFiles.required_columns = x :: xs.
Proof.
  intros Hin Hnot.
  assert (c ∈ List.filter (fun c => negb (bool_decide (c ∈ columns df)))
                CheckFiles.required_columns) as H.
  { apply list_elem_of_In, List.filter_In. split; [by apply list_elem_of_In|].
    by rewrite bool_decide_eq_false_2. }
  destruct (List.filter _ _) as [|x xs]; [by apply elem_of_nil in H|eauto].
Qed.

Example missing_message :
  CheckFiles.main sample_args sample_world_no_accession
  = (Raise (KeyError "Missing required column(s): AP_2, AP_3, Accession, Lateral_2, Lateral_3"),
     sample_world_no_accession).
Proof. vm_compute. reflexivity. Qed.

(** C8. When the dataset that was loaded lacks the accession column,
    either tool raises its KeyError and leaves the world exactly as it
    found it: no file is written (the workbook and any output file are
    unchanged) and nothing is printed, so no row was processed. The file
    validator does the same when any of its required columns is absent. *)
Theorem missing_column_fails_early :
  (∀ (args : AddStudyKey.Args) (urandom : nat → N) (w : world) (df : DataFrame),
     files w !! Path.to_string (Path.of_string (AddStudyKey.excel args))
       = Some (Workbook df) →
     "Accession" ∉ columns df →
     AddStudyKey.main args urandom w
     = (Raise (KeyError "Missing required column: Accession"), w))
  ∧ (∀ (args : CheckFiles.Args) (w : world) (df : DataFrame) (c : string),
       files w !! Path.to_string (Path.of_string (CheckFiles.excel args))
         = Some (Workbook df) →
       path_exists w (Path.of_string (CheckFiles.base_dir args)) = true →
       c ∈ CheckFiles.required_columns →
       c ∉ columns df →
       CheckFiles.main args w
       = (Raise (KeyError
                   ("Missing required column(s): "
                    ++ Py.join ", "
                         (CheckFiles.sorted
                            (List.filter
                               (fun c => negb (bool_decide (c ∈ columns df)))
                               CheckFiles.required_columns)))), w)).
Proof.
  split.
  - intros args urandom w df Hfile Hcol.
    assert (path_exists w (Path.of_string (AddStudyKey.excel args)) = true)
      as Hexcel.
    { unfold path_exists. rewrite Hfile. by apply bool_decide_eq_true_2. }
    unfold AddStudyKey.main.
    cbv beta iota zeta delta [mbind io_bind exists_]. rewrite Hexcel.
    change (negb true) with false. cbv beta iota delta [read_excel].
    rewrite Hfile. cbv beta iota.
    by rewrite bool_decide_eq_false_2.
  - intros args w df c Hfile Hbase Hin Hnot.
    assert (path_exists w (Path.of_string (CheckFiles.excel args)) = true)
      as Hexcel.
    { unfold path_exists. rewrite Hfile. by apply bool_decide_eq_true_2. }
    destruct (missing_filter_nonempty df c Hin Hnot) as (x & xs & Hmiss).
    unfold CheckFiles.main.
    cbv beta iota zeta delta [mbind io_bind exists_]. rewrite Hexcel.
    change (negb true) with false. cbv beta iota. rewrite Hbase.
    change (negb true) with false. cbv beta iota delta [read_excel].
    rewrite Hfile. cbv beta iota. rewrite Hmiss. reflexivity.
Qed.

Lemma missing_column_fails_early_witness :
  AddStudyKey.main {| AddStudyKey.excel := "in.xlsx";
                      AddStudyKey.key_column := "Study_Key" |}
    zero_entropy sample_world_no_accession
  = (Raise (KeyError "Missing required column: Accession"),
     sample_world_no_accession)
  ∧ CheckFiles.main sample_args sample_world_no_accession
    = (Raise (KeyError
                ("Missing required column(s): "
                 ++ Py.join ", "
                      (CheckFiles.sorted
                         (List.filter
                            (fun c => negb (bool_decide
                                              (c ∈ columns sample_no_accession)))
                            CheckFiles.required_columns)))),
       sample_world_no_accession).
Proof.
  assert ("Accession" ∉ columns sample_no_accession) as Hnot.
  { intros H. unfold sample_no_accession in H. simpl in H.
    repeat (apply elem_of_cons in H as [H|H]; [discriminate H|]).
    by apply elem_of_nil in H. }
  destruct missing_column_fails_early as [Hkey Hcheck]. split.
  - by apply (Hkey _ _ _ sample_no_accession).
  - apply (Hcheck _ _ sample_no_accession "Accession"); [reflexivity..| |done].
    by left.
Defined.

(** * Further properties of the code *)

(** ** The value normalizer *)

(** X1. The normalizer returns the empty string exactly for the cells
    both tools treat as blank: an absent cell, the floating not-a-number
    marker, and a cell whose printed form, trimmed, is empty or "nan" in
    any letter case. *)
Theorem normalize_value_empty_iff (value : pyvalue) :
  AddStudyKey.normalize_value value = ""
  ↔ value = PyNone ∨ value = PyFloat NaN
    ∨ Py.strip (str value) = ""
    ∨ Py.lower (Py.strip (str value)) = "nan".
Proof.
  split.
  - intros H. unfold AddStudyKey.normalize_value in H.
    destruct (is_None value || isinstance_float value && isna value) eqn:E.
    + destruct value as [|[|]| | |]; try discriminate E; auto.
    + cbv zeta in H.
      destruct (String.eqb_spec (Py.lower (Py.strip (str value))) "nan"); auto.
  - intros [->|[->|[H|H]]]; [reflexivity..| |].
    + destruct (normalize_value_cases value) as [?|[-> _]]; done.
    + unfold AddStudyKey.normalize_value.
      destruct (is_None value || isinstance_float value && isna value);
        [done|]. cbv zeta. by rewrite H.
Qed.

(** X2. What the normalizer returns carries no white space at either end
    and is never "nan" in any letter case; and for a cell other than
    [None] it depends on the printed form of the cell alone, so that a
    number and the text that prints like it normalize alike. *)
Theorem normalize_value_by_text (value : pyvalue) :
  Py.strip (AddStudyKey.normalize_value value) = AddStudyKey.normalize_value value
  ∧ Py.lower (AddStudyKey.normalize_value value) ≠ "nan"
  ∧ (value ≠ PyNone →
     AddStudyKey.normalize_value value
     = AddStudyKey.normalize_value (PyStr (str value))).
Proof.
  split; [|split].
  - destruct (normalize_value_cases value) as [->|[-> _]]; [done|].
    apply strip_idem.
  - destruct (normalize_value_cases value) as [->|[-> E]]; [done|].
    by apply String.eqb_neq.
  - intros Hne. destruct value as [|[|]| | |]; done.
Qed.

(** ** The key assigner: errors and effects of [main] *)

(** X3. When nothing exists at the workbook path, the key assigner raises
    FileNotFoundError with the path in its message, before it reads or
    writes anything: files and console are as before. *)
Theorem key_assigner_missing_workbook
    (args : AddStudyKey.Args) (urandom : nat → N) (w : world) :
  files w !! Path.to_string (Path.of_string (AddStudyKey.excel args)) = None →
  AddStudyKey.main args urandom w
  = (Raise (FileNotFoundError
              ("Excel file not found: "
               ++ Path.to_string (Path.of_string (AddStudyKey.excel args)))),
     w).
Proof.
  intros Hfile.
  assert (path_exists w (Path.of_string (AddStudyKey.excel args)) = false)
    as Hexcel.
  { unfold path_exists. rewrite Hfile. apply bool_decide_eq_false_2.
    by intros [? ?]. }
  unfold AddStudyKey.main.
  cbv beta iota zeta delta [mbind io_bind exists_]. by rewrite Hexcel.
Qed.

Lemma key_assigner_missing_workbook_witness :
  AddStudyKey.main {| AddStudyKey.excel := "data/in.xlsx";
                      AddStudyKey.key_column := "Study_Key" |}
    zero_entropy empty_world
  = (Raise (FileNotFoundError "Excel file not found: data/in.xlsx"),
     empty_world).
Proof.
  apply (key_assigner_missing_workbook
           {| AddStudyKey.excel := "data/in.xlsx";
              AddStudyKey.key_column := "Study_Key" |} zero_entropy empty_world).
  reflexivity.
Defined.

Lemma ensure_key_column_rows key_col df i r :
  rows df !! i = Some r →
  ∃ r', rows (AddStudyKey.ensure_key_column key_col df) !! i = Some r'
        ∧ ∀ c, c ≠ key_col → r' !! c = r !! c.
Proof.
  intros Hi. unfold AddStudyKey.ensure_key_column.
  destruct (bool_decide (key_col ∈ columns df)); [by exists r|].
  simpl. rewrite list_lookup_fmap, Hi. simpl. eexists. split; [done|].
  intros c Hc. by rewrite lookup_insert_ne.
Qed.

Lemma written_other key_col m (r : row) c :
  c ≠ key_col → written key_col m r !! c = r !! c.
Proof.
  intros Hc. unfold written. destruct (Py.is_empty _); [done|].
  by rewrite lookup_insert_ne.
Qed.

(** X4. A run of the key assigner that passes its guards returns 0,
    replaces the workbook and touches no other file, and prints one line.
    The dataset it saves has the records of the one it loaded, in the same
    number and order, its columns with the key column added at the end
    when it was absent, and every cell outside the key column as loaded. *)
Theorem key_assigner_run_effects
    (args : AddStudyKey.Args) (urandom : nat → N) (w : world) (df : DataFrame) :
  files w !! Path.to_string (Path.of_string (AddStudyKey.excel args))
    = Some (Workbook df) →
  "Accession" ∈ columns df →
  ∃ w' out,
    AddStudyKey.main args urandom w = (Return 0%Z, w')
    ∧ files w' !! Path.to_string (Path.of_string (AddStudyKey.excel args))
      = Some (Workbook out)
    ∧ (∀ q, q ≠ Path.to_string (Path.of_string (AddStudyKey.excel args)) →
            files w' !! q = files w !! q)
    ∧ stdout w'
      = app (stdout w)
          ["Updated " ++ Path.to_string (Path.of_string (AddStudyKey.excel args))
           ++ " with column " ++ AddStudyKey.key_column args ++ "."]
    ∧ length (rows out) = length (rows df)
    ∧ columns out
      = (if bool_decide (AddStudyKey.key_column args ∈ columns df)
         then columns df
         else app (columns df) [AddStudyKey.key_column args])
    ∧ ∀ i r, rows df !! i = Some r →
             ∃ r', rows out !! i = Some r'
                   ∧ ∀ c, c ≠ AddStudyKey.key_column args → r' !! c = r !! c.
Proof.
  intros Hfile Hcol. eexists _, _. split; [by apply main_saves|].
  cbn [files stdout]. split; [by rewrite lookup_insert_eq|].
  split; [intros q Hq; by rewrite lookup_insert_ne|]. split; [done|].
  rewrite assign_keys_rows. split; [|split].
  - rewrite length_fmap. unfold AddStudyKey.ensure_key_column.
    destruct (bool_decide _); [done|]. simpl. by rewrite length_fmap.
  - unfold AddStudyKey.assign_keys, AddStudyKey.ensure_key_column. simpl.
    destruct (bool_decide (AddStudyKey.key_column args ∈ columns df)) eqn:E;
      [done|]. simpl. by rewrite E.
  - intros i r Hi.
    destruct (ensure_key_column_rows (AddStudyKey.key_column args) df i r Hi)
      as (r1 & Hr1 & Hsame).
    rewrite list_lookup_fmap, Hr1. simpl. eexists. split; [done|].
    intros c Hc. rewrite written_other by done. by apply Hsame.
Qed.

Lemma key_assigner_run_effects_witness :
  ∃ w' out,
    AddStudyKey.main {| AddStudyKey.excel := "in.xlsx";
                        AddStudyKey.key_column := "Key" |}
      zero_entropy
      {| files := <["in.xlsx" := Workbook sample_keys]> ∅; stdout := [] |}
    = (Return 0%Z, w')
    ∧ files w' !! "in.xlsx" = Some (Workbook out)
    ∧ length (rows out) = 4%nat
    ∧ columns out = ["Accession"; "Study_Key"; "Key"].
Proof.
  destruct (key_assigner_run_effects
              {| AddStudyKey.excel := "in.xlsx"; AddStudyKey.key_column := "Key" |}
              zero_entropy
              {| files := <["in.xlsx" := Workbook sample_keys]> ∅; stdout := [] |}
              sample_keys)
    as (w' & out & Hmain & Hfile & _ & _ & Hlen & Hcols & _).
  - reflexivity.
  - unfold sample_keys. simpl. apply list_elem_of_here.
  - exists w', out. repeat split; done.
Defined.

(** ** The key assigner: the identifiers drawn *)

Lemma accessions_cons r rs :
  accessions (r :: rs)
  = if Py.is_empty (accession_of r) then accessions rs
    else {[accession_of r]} ∪ accessions rs.
Proof.
  unfold accessions, with_accession. simpl.
  destruct (Py.is_empty (accession_of r)); simpl; done.
Qed.

Lemma elem_of_accessions rs a :
  a ∈ accessions rs ↔ a ≠ "" ∧ ∃ r, r ∈ rs ∧ accession_of r = a.
Proof.
  induction rs as [|r rs IH].
  - unfold accessions. simpl. split; [by intros ?%elem_of_empty|].
    intros (_ & r & Hr & _). by apply elem_of_nil in Hr.
  - rewrite accessions_cons.
    destruct (Py.is_empty (accession_of r)) eqn:E.
    + apply is_empty_true in E. rewrite IH. split.
      * intros (Ha & r' & Hr' & Hacc). split; [done|].
        exists r'. split; [by right|done].
      * intros (Ha & r' & Hr' & Hacc). split; [done|].
        apply elem_of_cons in Hr' as [->|Hr']; [congruence|]. by exists r'.
    + apply is_empty_false in E. rewrite elem_of_union, elem_of_singleton, IH.
      split.
      * intros [->|(Ha & r' & Hr' & Hacc)].
        -- split; [done|]. exists r. split; [by left|done].
        -- split; [done|]. exists r'. split; [by right|done].
      * intros (Ha & r' & Hr' & Hacc).
        apply elem_of_cons in Hr' as [->|Hr']; [by left|].
        right. split; [done|]. by exists r'.
Qed.

Section Draws.

Variable urandom : nat → N.

Lemma key_fold_dom rs : ∀ md,
  dom (foldl (key_step urandom) md rs).1 = dom md.1 ∪ accessions rs.
Proof.
  induction rs as [|r rs IH]; intros md.
  - unfold accessions. simpl. by rewrite union_empty_r_L.
  - simpl foldl. rewrite IH, accessions_cons.
    destruct (key_step_cases urandom md r) as [Hk|(Ha & E & Hk)]; rewrite Hk.
    + destruct (Py.is_empty (accession_of r)) eqn:Eb; [done|].
      apply is_empty_false in Eb.
      destruct (key_step_covers urandom md r Eb) as [v Hv]. rewrite Hk in Hv.
      apply (elem_of_dom_2 (D:=gset string)) in Hv.
      apply set_eq. intros x. rewrite !elem_of_union, elem_of_singleton.
      split; [tauto|]. intros [?|[->|?]]; auto.
    + apply is_empty_false in Ha as ->. simpl. rewrite dom_insert_L.
      apply set_eq. intros x. rewrite !elem_of_union, elem_of_singleton.
      tauto.
Qed.

Lemma key_fold_size rs : ∀ md,
  (size (foldl (key_step urandom) md rs).1 + md.2
   = size md.1 + (foldl (key_step urandom) md rs).2)%nat.
Proof.
  induction rs as [|r rs IH]; intros md; [simpl; lia|].
  simpl foldl. specialize (IH (key_step urandom md r)).
  destruct (key_step_cases urandom md r) as [Hk|(Ha & E & Hk)];
    rewrite Hk in *; [done|].
  simpl in IH. rewrite map_size_insert_None in IH by done. lia.
Qed.

(** Each accession that enters the dictionary in the second loop has a
    draw of its own. *)
Lemma key_fold_indices rs : ∀ md,
  ∃ g : gmap string nat,
    (∀ a j, g !! a = Some j →
            (md.2 ≤ j < (foldl (key_step urandom) md rs).2)%nat
            ∧ (foldl (key_step urandom) md rs).1 !! a
              = Some (Uuid.uuid4 (urandom j)))
    ∧ (∀ a, md.1 !! a = None →
            is_Some ((foldl (key_step urandom) md rs).1 !! a) →
            is_Some (g !! a))
    ∧ (∀ a1 a2 j, g !! a1 = Some j → g !! a2 = Some j → a1 = a2).
Proof.
  induction rs as [|r rs IH]; intros md.
  - exists ∅. split; [|split]; try (intros; by rewrite lookup_empty in *).
    simpl. intros a Hnone [v Hv]. congruence.
  - simpl foldl.
    destruct (key_step_cases urandom md r) as [Hk|(Ha & E & Hk)]; rewrite Hk.
    { apply IH. }
    destruct (IH (<[accession_of r:=Uuid.uuid4 (urandom md.2)]> md.1, S md.2))
      as (g & Hg1 & Hg2 & Hg3).
    set (md' := (<[accession_of r:=Uuid.uuid4 (urandom md.2)]> md.1, S md.2))
      in *.
    exists (<[accession_of r := md.2]> g). split; [|split].
    + intros a j. destruct (decide (accession_of r = a)) as [<-|Hne].
      * rewrite lookup_insert_eq. intros [= <-]. split.
        -- pose proof (key_fold_draws urandom rs md'). simpl in *. lia.
        -- eapply lookup_weaken; [|apply (key_fold_subseteq urandom rs md')].
           simpl. by rewrite lookup_insert_eq.
      * rewrite lookup_insert_ne by done. intros Hj.
        destruct (Hg1 a j Hj) as [Hr Hv]. simpl in Hr. split; [lia|done].
    + intros a Hnone Hsome. destruct (decide (accession_of r = a)) as [<-|Hne].
      * rewrite lookup_insert_eq. eauto.
      * rewrite lookup_insert_ne by done. apply Hg2; [|done].
        simpl. by rewrite lookup_insert_ne.
    + intros a1 a2 j.
      destruct (decide (accession_of r = a1)) as [<-|Hne1];
        destruct (decide (accession_of r = a2)) as [<-|Hne2];
        rewrite ?lookup_insert_eq, ?lookup_insert_ne by done.
      * done.
      * intros [= <-] Hj. destruct (Hg1 _ _ Hj) as [Hr _]. simpl in Hr. lia.
      * intros Hj [= <-]. destruct (Hg1 _ _ Hj) as [Hr _]. simpl in Hr. lia.
      * apply Hg3.
Qed.

End Draws.

Lemma harvest_dom_accessions key_col rs :
  dom (AddStudyKey.harvest key_col rs) ⊆ accessions rs.
Proof.
  intros a [v Hv]%elem_of_dom. rewrite harvest_lookup in Hv.
  destruct (first_key_Some _ _ _ _ Hv) as (Ha & _ & _ & r & Hr & Hacc & _).
  apply elem_of_accessions. eauto.
Qed.

(** X5. After a run the dictionary has an entry for exactly the distinct
    non-empty accessions of the dataset; the first loop fills the entries
    of the accessions that have a record with a key; and the number of
    identifiers drawn is the number of distinct accessions without one
    (not the number of records without a key). *)
Theorem draws_per_keyless_accession
    (urandom : nat → N) (key_col : string) (df : DataFrame) :
  let rs := rows (AddStudyKey.ensure_key_column key_col df) in
  let st := AddStudyKey.run_passes urandom key_col df in
  dom (AddStudyKey.accession_to_key st) = accessions rs
  ∧ (∀ a, a ∈ dom (AddStudyKey.harvest key_col rs)
          ↔ a ∈ accessions rs ∧ is_Some (first_key key_col a rs))
  ∧ AddStudyKey.draws st
    = size (accessions rs ∖ dom (AddStudyKey.harvest key_col rs)).
Proof.
  intros rs st. unfold st. rewrite run_passes_eq. fold rs. cbv zeta.
  cbn [AddStudyKey.accession_to_key AddStudyKey.draws].
  pose proof (harvest_dom_accessions key_col rs) as Hsub.
  assert (dom (foldl (key_step urandom) (AddStudyKey.harvest key_col rs, 0%nat) rs).1
          = accessions rs) as Hdom.
  { rewrite key_fold_dom. simpl. by apply subseteq_union_1_L. }
  split; [exact Hdom|]. split.
  - intros a. rewrite elem_of_dom, harvest_lookup. split.
    + intros Hs. split; [|done]. apply Hsub.
      apply elem_of_dom. by rewrite harvest_lookup.
    + by intros [_ ?].
  - pose proof (key_fold_size urandom rs (AddStudyKey.harvest key_col rs, 0%nat))
      as Hsize.
    simpl in Hsize. rewrite <- (size_dom (D:=gset string)) in Hsize.
    rewrite Hdom in Hsize.
    rewrite size_difference by done. rewrite size_dom. lia.
Qed.

(** X6. Two different accessions that both lack a key receive identifiers
    from two different draws of the run: no drawn identifier is handed to
    more than one accession. *)
Theorem fresh_keys_from_distinct_draws
    (urandom : nat → N) (key_col : string) (df : DataFrame) (a1 a2 : string) :
  let rs := rows (AddStudyKey.ensure_key_column key_col df) in
  let st := AddStudyKey.run_passes urandom key_col df in
  a1 ∈ accessions rs → a2 ∈ accessions rs → a1 ≠ a2 →
  first_key key_col a1 rs = None → first_key key_col a2 rs = None →
  ∃ j1 j2,
    (j1 < AddStudyKey.draws st)%nat ∧ (j2 < AddStudyKey.draws st)%nat
    ∧ j1 ≠ j2
    ∧ AddStudyKey.accession_to_key st !! a1 = Some (Uuid.uuid4 (urandom j1))
    ∧ AddStudyKey.accession_to_key st !! a2 = Some (Uuid.uuid4 (urandom j2)).
Proof.
  intros rs st Ha1 Ha2 Hne Hk1 Hk2. unfold st. rewrite run_passes_eq.
  fold rs. cbv zeta. cbn [AddStudyKey.accession_to_key AddStudyKey.draws].
  destruct (key_fold_indices urandom rs (AddStudyKey.harvest key_col rs, 0%nat))
    as (g & Hg1 & Hg2 & Hg3).
  assert (∀ a, a ∈ accessions rs → first_key key_col a rs = None →
               is_Some (g !! a)) as Hidx.
  { intros a Ha Hk. apply Hg2.
    - simpl. by rewrite harvest_lookup.
    - apply (elem_of_dom (D:=gset string)). rewrite key_fold_dom.
      apply elem_of_union. by right. }
  destruct (Hidx a1 Ha1 Hk1) as [j1 Hj1]. destruct (Hidx a2 Ha2 Hk2) as [j2 Hj2].
  destruct (Hg1 _ _ Hj1) as [Hr1 Hv1]. destruct (Hg1 _ _ Hj2) as [Hr2 Hv2].
  exists j1, j2. split; [lia|]. split; [lia|]. split; [|done].
  intros ->. apply Hne. by apply (Hg3 a1 a2 j2).
Qed.

Lemma fresh_keys_from_distinct_draws_witness :
  ∃ j1 j2,
    (j1 < AddStudyKey.draws
            (AddStudyKey.run_passes counting_entropy "Study_Key" sample_keyless))%nat
    ∧ (j2 < AddStudyKey.draws
              (AddStudyKey.run_passes counting_entropy "Study_Key" sample_keyless))%nat
    ∧ j1 ≠ j2
    ∧ AddStudyKey.accession_to_key
        (AddStudyKey.run_passes counting_entropy "Study_Key" sample_keyless)
        !! "A" = Some (Uuid.uuid4 (counting_entropy j1))
    ∧ AddStudyKey.accession_to_key
        (AddStudyKey.run_passes counting_entropy "Study_Key" sample_keyless)
        !! "B" = Some (Uuid.uuid4 (counting_entropy j2)).
Proof.
  apply (fresh_keys_from_distinct_draws counting_entropy "Study_Key"
           sample_keyless "A" "B").
  - apply elem_of_accessions. split; [discriminate|].
    exists (key_row (PyStr "A") (PyFloat NaN)).
    split; [apply list_elem_of_here|reflexivity].
  - apply elem_of_accessions. split; [discriminate|].
    exists (key_row (PyStr "B") (PyStr " ")).
    split; [apply list_elem_of_further, list_elem_of_here|reflexivity].
  - discriminate.
  - reflexivity.
  - reflexivity.
Defined.

Example keyless_sample :
  (fun r => row_get r "Study_Key")
    <$> rows (AddStudyKey.assign_keys counting_entropy "Study_Key" sample_keyless)
  = [PyStr "00000000-0000-4000-8000-000000000000";
     PyStr "00000000-0000-4000-8000-000000000001";
     PyStr "00000000-0000-4000-8000-000000000000"].
Proof. vm_compute. reflexivity. Qed.

(** ** The file validator: errors raised before the loop *)

(** X7. The file validator checks its paths in a fixed order and raises
    on the first that is absent, with files and console untouched: a
    missing workbook is reported whatever else is wrong, and a missing
    base directory is reported before the workbook is even read, hence
    also when the workbook lacks columns or is no workbook at all. *)
Theorem validator_missing_paths (args : CheckFiles.Args) (w : world) :
  (files w !! Path.to_string (Path.of_string (CheckFiles.excel args)) = None →
   CheckFiles.main args w
   = (Raise (FileNotFoundError
               ("Excel file not found: "
                ++ Path.to_string (Path.of_string (CheckFiles.excel args)))),
      w))
  ∧ (is_Some (files w !! Path.to_string (Path.of_string (CheckFiles.excel args))) →
     files w !! Path.to_string (Path.of_string (CheckFiles.base_dir args)) = None →
     CheckFiles.main args w
     = (Raise (FileNotFoundError
                 ("Base directory not found: "
                  ++ Path.to_string (Path.of_string (CheckFiles.base_dir args)))),
        w)).
Proof.
  split.
  - intros Hfile.
    assert (path_exists w (Path.of_string (CheckFiles.excel args)) = false)
      as Hexcel.
    { unfold path_exists. rewrite Hfile. apply bool_decide_eq_false_2.
      by intros [? ?]. }
    unfold CheckFiles.main.
    cbv beta iota zeta delta [mbind io_bind exists_]. by rewrite Hexcel.
  - intros Hfile Hdir.
    assert (path_exists w (Path.of_string (CheckFiles.excel args)) = true)
      as Hexcel by (unfold path_exists; by apply bool_decide_eq_true_2).
    assert (path_exists w (Path.of_string (CheckFiles.base_dir args)) = false)
      as Hbase.
    { unfold path_exists. rewrite Hdir. apply bool_decide_eq_false_2.
      by intros [? ?]. }
    unfold CheckFiles.main.
    cbv beta iota zeta delta [mbind io_bind exists_]. rewrite Hexcel.
    change (negb true) with false. cbv beta iota. by rewrite Hbase.
Qed.

Lemma validator_missing_paths_witness :
  CheckFiles.main sample_args empty_world
  = (Raise (FileNotFoundError "Excel file not found: in.xlsx"), empty_world)
  ∧ CheckFiles.main sample_args sample_world_no_base
    = (Raise (FileNotFoundError "Base directory not found: base"),
       sample_world_no_base).
Proof.
  destruct (validator_missing_paths sample_args empty_world) as [H1 _].
  destruct (validator_missing_paths sample_args sample_world_no_base) as [_ H2].
  split.
  - apply H1. reflexivity.
  - apply H2; [|reflexivity]. eexists. reflexivity.
Defined.

Lemma required_columns_NoDup : NoDup CheckFiles.required_columns.
Proof.
  unfold CheckFiles.required_columns, CheckFiles.columns_to_check.
  repeat (apply NoDup_cons; split;
          [intros H; repeat (apply elem_of_cons in H as [H|H]; [discriminate H|]);
           by apply elem_of_nil in H|]).
  apply NoDup_nil_2.
Qed.

(** X8. The columns named in the validator's KeyError are exactly the
    required columns that the dataset lacks, each once, in ascending order
    of code points; and the error is raised, with the world untouched,
    exactly when that list is not empty for a dataset that was loaded. *)
Theorem missing_columns_message
    (args : CheckFiles.Args) (w : world) (df : DataFrame) :
  let names :=
    CheckFiles.sorted
      (List.filter (fun c => negb (bool_decide (c ∈ columns df)))
         CheckFiles.required_columns) in
  (∀ c, c ∈ names ↔ c ∈ CheckFiles.required_columns ∧ c ∉ columns df)
  ∧ NoDup names
  ∧ Sorted String.le names
  ∧ (files w !! Path.to_string (Path.of_string (CheckFiles.excel args))
       = Some (Workbook df) →
     path_exists w (Path.of_string (CheckFiles.base_dir args)) = true →
     names ≠ [] →
     CheckFiles.main args w
     = (Raise (KeyError ("Missing required column(s): " ++ Py.join ", " names)),
        w)).
Proof.
  intros names.
  assert (names ≡ₚ List.filter (fun c => negb (bool_decide (c ∈ columns df)))
                    CheckFiles.required_columns) as Hperm
    by apply merge_sort_Permutation.
  split; [|split; [|split]].
  - intros c. rewrite Hperm, list_elem_of_In, List.filter_In, <- list_elem_of_In.
    rewrite negb_true_iff, bool_decide_eq_false. done.
  - rewrite Hperm. apply NoDup_ListNoDup, List.NoDup_filter, NoDup_ListNoDup.
    apply required_columns_NoDup.
  - apply Sorted_merge_sort. apply _.
  - intros Hfile Hbase Hne.
    assert (path_exists w (Path.of_string (CheckFiles.excel args)) = true)
      as Hexcel.
    { unfold path_exists. rewrite Hfile. by apply bool_decide_eq_true_2. }
    unfold CheckFiles.main.
    cbv beta iota zeta delta [mbind io_bind exists_]. rewrite Hexcel.
    change (negb true) with false. cbv beta iota. rewrite Hbase.
    change (negb true) with false. cbv beta iota delta [read_excel].
    rewrite Hfile. cbv beta iota. clear Hperm. subst names. revert Hne.
    destruct (List.filter _ CheckFiles.required_columns) as [|x xs]; [|done].
    intros Hne. exfalso. by apply Hne.
Qed.

(** ** The file validator: the console and the files after a run *)

Lemma foldl_add_lines {A B : Type} (g : world → B → A → B) w lines :
  (∀ w lines b x, g (add_lines w lines) b x = g w b x) →
  ∀ l b, foldl (g (add_lines w lines)) b l = foldl (g w) b l.
Proof.
  intros Hg l. induction l as [|x l IH]; intros b; simpl; [done|].
  by rewrite Hg, IH.
Qed.

(** A loop whose body prints lines that depend on the files and on the
    element alone prints them in order. *)
Lemma foldM_exact {A B : Type} (f : B → A → IO B) (g : world → B → A → B)
    (h : world → A → list string) :
  (∀ w lines b x, g (add_lines w lines) b x = g w b x) →
  (∀ w lines x, h (add_lines w lines) x = h w x) →
  (∀ b x w, f b x w = (Return (g w b x), add_lines w (h w x))) →
  ∀ l b w,
    foldM f b l w
    = (Return (foldl (g w) b l), add_lines w (concat (h w <$> l))).
Proof.
  intros Hg Hh Hf l. induction l as [|x l IH]; intros b w.
  - simpl. by rewrite add_lines_nil.
  - simpl. unfold mbind, io_bind. rewrite Hf, IH, add_lines_app.
    rewrite (foldl_add_lines g) by done.
    do 2 f_equal. simpl. do 2 f_equal. apply list_fmap_ext.
    intros i y _. apply Hh.
Qed.

Lemma check_column_exact base_dir accession r st column w :
  CheckFiles.check_column base_dir accession r st column w
  = (Return (column_result w base_dir accession r st column),
     add_lines w (column_lines w base_dir accession r column)).
Proof.
  unfold CheckFiles.check_column, column_result, column_lines. cbv zeta.
  fold (image_value r column).
  destruct (Py.is_empty (image_value r column)).
  { by rewrite add_lines_nil. }
  unfold mbind, io_bind, CheckFiles.any_exists.
  fold (cell_found w base_dir accession (image_value r column)).
  destruct (cell_found w base_dir accession (image_value r column)).
  - simpl. by rewrite add_lines_nil.
  - reflexivity.
Qed.

Lemma check_row_exact base_dir st it w :
  CheckFiles.check_row base_dir st it w
  = (Return (row_result w base_dir st it.2),
     add_lines w (row_lines w base_dir it.2)).
Proof.
  unfold CheckFiles.check_row, row_result, row_lines. cbv zeta.
  change (CheckFiles.normalize_value (row_get it.2 "Accession"))
    with (accession_of it.2).
  destruct (Py.is_empty (accession_of it.2)).
  { by rewrite add_lines_nil. }
  unfold mbind, io_bind.
  rewrite (foldM_exact _
             (fun w => column_result w base_dir (accession_of it.2) it.2)
             (fun w => column_lines w base_dir (accession_of it.2) it.2));
    [reflexivity|reflexivity|reflexivity|].
  intros. apply check_column_exact.
Qed.

Lemma fmap_snd_imap {B : Type} (f : row → B) rs :
  ∀ (h : nat → row → nat * row),
    (∀ i r, (h i r).2 = r) →
    (fun it : nat * row => f it.2) <$> imap h rs = f <$> rs.
Proof.
  induction rs as [|r rs IH]; intros h Hh; [done|].
  rewrite imap_cons, !fmap_cons, Hh. f_equal. apply IH. intros. apply Hh.
Qed.

(** The outer loop with the lines it prints. *)
Lemma check_rows_exact base_dir rs st w :
  foldM (CheckFiles.check_row base_dir) st (iterrows rs) w
  = (Return (foldl (row_result w base_dir) st rs),
     add_lines w (error_lines w base_dir rs)).
Proof.
  rewrite (foldM_exact _
             (fun w st (it : nat * row) => row_result w base_dir st it.2)
             (fun w (it : nat * row) => row_lines w base_dir it.2));
    [|reflexivity|reflexivity|intros; apply check_row_exact].
  rewrite foldl_iterrows. unfold error_lines, iterrows.
  by rewrite (fmap_snd_imap (row_lines w base_dir)).
Qed.

Lemma column_lines_length w base_dir accession r columns :
  length (concat (column_lines w base_dir accession r <$> columns))
  = length (List.filter
              (fun c => negb (cell_found w base_dir accession (image_value r c)))
              (List.filter (fun c => negb (Py.is_empty (image_value r c)))
                 columns)).
Proof.
  induction columns as [|c columns IH]; [done|].
  rewrite fmap_cons. simpl concat. rewrite length_app, IH.
  unfold column_lines. cbv zeta. simpl List.filter.
  destruct (Py.is_empty (image_value r c)); simpl; [done|].
  by destruct (cell_found w base_dir accession (image_value r c)).
Qed.

(** One diagnostic per missing file. *)
Lemma error_lines_length w base_dir rs :
  length (error_lines w base_dir rs) = expected_missing w base_dir rs.
Proof.
  unfold error_lines, expected_missing, with_accession.
  induction rs as [|r rs IH]; [done|].
  rewrite fmap_cons. simpl concat. rewrite length_app, IH.
  unfold row_lines. simpl List.filter.
  destruct (Py.is_empty (accession_of r)); [done|].
  rewrite column_lines_length. reflexivity.
Qed.

(** What a run of [main] that passes its guards returns and leaves. *)
Lemma main_world args w df :
  ready args w df →
  let base := Path.of_string (CheckFiles.base_dir args) in
  let out := expected_out_row w base <$> with_accession (rows df) in
  CheckFiles.main args w
  = (Return (if (0 <? expected_missing w base (rows df))%nat then 1%Z else 0%Z),
     {| files :=
          match out with
          | [] => files w
          | _ :: _ =>
              <[Path.to_string (Path.of_string (CheckFiles.out_csv args)) :=
                  CsvFile (CheckFiles.select output_header out)]> (files w)
          end;
        stdout := stdout w ++ error_lines w base (rows df)
                  ++ summary_lines args w (rows df) |}).
Proof.
  intros (Hfile & Hbase & Hcols) base out.
  assert (path_exists w (Path.of_string (CheckFiles.excel args)) = true)
    as Hexcel.
  { unfold path_exists. rewrite Hfile. by apply bool_decide_eq_true_2. }
  unfold CheckFiles.main.
  cbv beta iota zeta delta [mbind io_bind exists_]. rewrite Hexcel.
  change (negb true) with false. cbv beta iota. rewrite Hbase.
  change (negb true) with false. cbv beta iota delta [read_excel].
  rewrite Hfile. cbv beta iota. rewrite (required_present df Hcols).
  cbv beta iota. rewrite check_rows_exact, rows_fold_spec. fold base.
  cbn [CheckFiles.error_count CheckFiles.checked_count CheckFiles.out_rows].
  rewrite !Nat.add_0_l, app_nil_l. fold out. unfold summary_lines. cbv zeta.
  fold base. fold out.
  destruct out as [|o out'];
    destruct (0 <? expected_missing w base (rows df))%nat;
    unfold to_csv, print, mret, io_ret, add_lines; simpl;
    rewrite <- ?app_assoc; reflexivity.
Qed.

Lemma column_lines_In w base_dir accession r column line :
  In line (column_lines w base_dir accession r column)
  ↔ image_value r column ≠ ""
    ∧ cell_found w base_dir accession (image_value r column) = false
    ∧ line = "ERROR: Missing file for Accession " ++ accession
             ++ " (" ++ column ++ "): "
             ++ display_name base_dir accession (image_value r column).
Proof.
  unfold column_lines. cbv zeta.
  destruct (Py.is_empty (image_value r column)) eqn:E.
  - apply is_empty_true in E. simpl. split; [done|]. by intros [? _].
  - apply is_empty_false in E.
    destruct (cell_found w base_dir accession (image_value r column)); simpl.
    + split; [done|]. by intros (_ & ? & _).
    + split.
      * intros [<-|[]]. done.
      * intros (_ & _ & ->). by left.
Qed.

Lemma missing_cells_In w base_dir r c :
  In c (missing_cells w base_dir r)
  ↔ In c CheckFiles.columns_to_check
    ∧ image_value r c ≠ ""
    ∧ cell_found w base_dir (accession_of r) (image_value r c) = false.
Proof.
  unfold missing_cells, checked_cells. rewrite !List.filter_In.
  rewrite !negb_true_iff, is_empty_false. tauto.
Qed.

(** The diagnostics are those of the missing cells of the records with an
    accession. *)
Lemma error_lines_In w base_dir rs line :
  In line (error_lines w base_dir rs)
  ↔ ∃ r c, In r (with_accession rs) ∧ In c (missing_cells w base_dir r)
           ∧ line = "ERROR: Missing file for Accession " ++ accession_of r
                    ++ " (" ++ c ++ "): "
                    ++ display_name base_dir (accession_of r) (image_value r c).
Proof.
  unfold error_lines, with_accession. rewrite in_concat. split.
  - intros (ls & Hls & Hline).
    apply list_elem_of_In, list_elem_of_fmap in Hls as (r & -> & Hr).
    unfold row_lines in Hline.
    destruct (Py.is_empty (accession_of r)) eqn:E; [done|].
    apply in_concat in Hline as (cl & Hcl & Hline).
    apply list_elem_of_In, list_elem_of_fmap in Hcl as (c & -> & Hc).
    apply column_lines_In in Hline as (Hv & Hf & ->).
    exists r, c. split; [|split; [|done]].
    + apply List.filter_In. split; [by apply list_elem_of_In|]. by rewrite E.
    + apply missing_cells_In. split; [by apply list_elem_of_In|done].
  - intros (r & c & Hr & Hc & ->).
    apply List.filter_In in Hr as [Hr E]. apply negb_true_iff in E.
    apply missing_cells_In in Hc as (Hc & Hv & Hf).
    exists (row_lines w base_dir r). split.
    + apply list_elem_of_In, list_elem_of_fmap. exists r.
      split; [done|by apply list_elem_of_In].
    + unfold row_lines. rewrite E. apply in_concat.
      exists (column_lines w base_dir (accession_of r) r c). split.
      * apply list_elem_of_In, list_elem_of_fmap. exists c.
        split; [done|by apply list_elem_of_In].
      * by apply column_lines_In.
Qed.

(** X9. On a run that passes its guards the validator prints, after what
    the console held, one ERROR line for each image cell of a record with
    an accession that holds a value and has no candidate file, naming the
    accession, the column and the display name, in the order of the rows
    and columns, and then the summary lines; the number of ERROR lines is
    the error count. *)
Theorem validator_console (args : CheckFiles.Args) (w : world) (df : DataFrame) :
  ready args w df →
  let base := Path.of_string (CheckFiles.base_dir args) in
  ∃ code w2,
    CheckFiles.main args w = (Return code, w2)
    ∧ stdout w2
      = app (stdout w)
          (app (error_lines w base (rows df)) (summary_lines args w (rows df)))
    ∧ length (error_lines w base (rows df)) = expected_missing w base (rows df)
    ∧ ∀ line,
        In line (error_lines w base (rows df))
        ↔ ∃ r c, In r (with_accession (rows df))
                 ∧ In c (missing_cells w base r)
                 ∧ line = "ERROR: Missing file for Accession " ++ accession_of r
                          ++ " (" ++ c ++ "): "
                          ++ display_name base (accession_of r) (image_value r c).
Proof.
  intros Hready base. eexists _, _.
  split; [exact (main_world args w df Hready)|]. cbn [stdout].
  split; [done|]. split; [apply error_lines_length|].
  intros line. apply error_lines_In.
Qed.

Lemma validator_console_witness :
  ∃ code w2,
    CheckFiles.main sample_args sample_world = (Return code, w2)
    ∧ stdout w2
      = ["ERROR: Missing file for Accession 3 (AP_1): scan.dcm";
         "Wrote 3 rows (2 found filenames) to found_files.csv.";
         "Checked 3 AP/Lateral entries.";
         "Found 1 missing file(s)."].
Proof.
  destruct (validator_console sample_args sample_world sample_images ready_sample)
    as (code & w2 & Hmain & Hout & _).
  exists code, w2. split; [exact Hmain|]. rewrite Hout. vm_compute. reflexivity.
Defined.

Lemma error_lines_no_study w base_dir rs :
  with_accession rs = [] → error_lines w base_dir rs = [].
Proof.
  intros H. apply nil_length_inv. rewrite error_lines_length.
  unfold expected_missing. by rewrite H.
Qed.

(** X10. When no record of the dataset has an accession, a run that passes
    its guards writes no output file and no ERROR line whatever the image
    columns hold: it prints that 0 entries were checked and that all files
    were found, and returns 0. *)
Theorem validator_without_studies
    (args : CheckFiles.Args) (w : world) (df : DataFrame) :
  ready args w df →
  with_accession (rows df) = [] →
  CheckFiles.main args w
  = (Return 0%Z,
     add_lines w ["Checked 0 AP/Lateral entries."; "All files found."]).
Proof.
  intros Hready Hnone. rewrite (main_world args w df Hready).
  rewrite (error_lines_no_study _ _ _ Hnone).
  unfold summary_lines, expected_missing, expected_checked. rewrite Hnone.
  reflexivity.
Qed.

Lemma ready_no_study : ready sample_args sample_world_no_study sample_no_study.
Proof.
  split; [reflexivity|]. split; [reflexivity|].
  intros c Hc. unfold CheckFiles.required_columns, CheckFiles.columns_to_check in Hc.
  repeat (apply elem_of_cons in Hc as [->|Hc];
          [unfold sample_no_study; simpl;
           repeat first [apply list_elem_of_here | apply list_elem_of_further]|]).
  by apply elem_of_nil in Hc.
Defined.

Lemma validator_without_studies_witness :
  CheckFiles.main sample_args sample_world_no_study
  = (Return 0%Z,
     add_lines sample_world_no_study
       ["Checked 0 AP/Lateral entries."; "All files found."]).
Proof.
  apply (validator_without_studies sample_args sample_world_no_study
           sample_no_study ready_no_study).
  reflexivity.
Defined.

(** X11. A run of the validator that passes its guards changes no file
    other than the output path: every other path holds what it held, the
    workbook included unless the output path is the workbook's own; and
    the output path is written exactly when some record has an
    accession. *)
Theorem validator_writes_only_output
    (args : CheckFiles.Args) (w : world) (df : DataFrame) :
  ready args w df →
  let out_path := Path.to_string (Path.of_string (CheckFiles.out_csv args)) in
  let excel_path := Path.to_string (Path.of_string (CheckFiles.excel args)) in
  ∃ code w2,
    CheckFiles.main args w = (Return code, w2)
    ∧ (∀ q, q ≠ out_path → files w2 !! q = files w !! q)
    ∧ (out_path ≠ excel_path → files w2 !! excel_path = Some (Workbook df))
    ∧ (with_accession (rows df) = [] → files w2 = files w)
    ∧ (with_accession (rows df) ≠ [] →
       ∃ t, files w2 !! out_path = Some (CsvFile t)).
Proof.
  intros Hready out_path excel_path. eexists _, _.
  split; [exact (main_world args w df Hready)|]. cbn [files].
  destruct Hready as (Hfile & _ & _).
  destruct (with_accession (rows df)) as [|r rs]; simpl.
  - split; [done|]. split; [done|]. split; [done|]. by intros [].
  - fold out_path. split; [intros q Hq; by rewrite lookup_insert_ne|].
    split; [intros Hne; by rewrite lookup_insert_ne|].
    split; [done|]. intros _. rewrite lookup_insert_eq. eauto.
Qed.

Lemma validator_writes_only_output_witness :
  ∃ code w2,
    CheckFiles.main sample_args sample_world = (Return code, w2)
    ∧ files w2 !! "in.xlsx" = Some (Workbook sample_images)
    ∧ files w2 !! "base/A1/IMG1.dcm" = files sample_world !! "base/A1/IMG1.dcm".
Proof.
  destruct (validator_writes_only_output sample_args sample_world sample_images
              ready_sample) as (code & w2 & Hmain & Hother & Hbook & _).
  exists code, w2. split; [exact Hmain|]. split.
  - apply Hbook. discriminate.
  - apply Hother. discriminate.
Defined.

(** ** The file validator: the cells of the output table *)

Lemma columns_to_check_NoDup : NoDup CheckFiles.columns_to_check.
Proof.
  pose proof required_columns_NoDup as H.
  unfold CheckFiles.required_columns in H. by apply NoDup_cons in H as [_ ?].
Qed.

Lemma display_name_nonempty base_dir accession value :
  display_name base_dir accession value ≠ "".
Proof.
  rewrite display_name_basename.
  destruct (with_dcm_snoc value) as (t & c & -> & Hsep & _).
  destruct (basename_snoc t c Hsep) as [u ->]. by destruct u.
Qed.

Lemma new_out_row_cell accession c :
  c ∈ CheckFiles.columns_to_check →
  CheckFiles.new_out_row accession !! c = Some "".
Proof.
  unfold CheckFiles.columns_to_check, CheckFiles.new_out_row. intros H. simpl.
  repeat (apply elem_of_cons in H as [->|H];
          [by repeat (rewrite ?lookup_insert_eq, ?lookup_insert_ne by done)|]).
  by apply elem_of_nil in H.
Qed.

(** The inner loop sets the cell of a column once, when it visits it. *)
Lemma columns_fold_cell w base_dir r columns c : ∀ st,
  NoDup columns → c ∈ columns →
  CheckFiles.out_row st !! c = Some "" →
  CheckFiles.out_row
    (foldl (column_result w base_dir (accession_of r) r) st columns) !! c
  = Some (expected_cell w base_dir r c).
Proof.
  induction columns as [|c0 columns IH]; intros st Hnd Hc Hinit.
  { by apply elem_of_nil in Hc. }
  apply NoDup_cons in Hnd as [Hc0 Hnd]. simpl.
  destruct (decide (c = c0)) as [->|Hne].
  - rewrite columns_fold_other by done.
    unfold column_result, expected_cell. cbv zeta.
    destruct (Py.is_empty (image_value r c0)); simpl; [done|].
    destruct (cell_found w base_dir (accession_of r) (image_value r c0)); simpl;
      [by rewrite lookup_insert_eq|done].
  - apply elem_of_cons in Hc as [?|Hc]; [done|]. apply IH; [done..|].
    unfold column_result. cbv zeta.
    destruct (Py.is_empty (image_value r c0)); [done|].
    destruct (cell_found w base_dir (accession_of r) (image_value r c0)); simpl;
      [by rewrite lookup_insert_ne|done].
Qed.

Lemma expected_out_row_cell w base_dir r c :
  c ∈ CheckFiles.columns_to_check →
  expected_out_row w base_dir r !! c = Some (expected_cell w base_dir r c).
Proof.
  intros Hc. unfold expected_out_row.
  apply columns_fold_cell; [apply columns_to_check_NoDup|done|].
  by apply new_out_row_cell.
Qed.

Lemma expected_out_row_line w base_dir r :
  (fun c => default "" (expected_out_row w base_dir r !! c)) <$> output_header
  = accession_of r :: (expected_cell w base_dir r <$> CheckFiles.columns_to_check).
Proof.
  change output_header with ("Accession" :: CheckFiles.columns_to_check).
  rewrite fmap_cons, expected_out_row_accession. simpl default. f_equal.
  apply list_fmap_ext. intros i c Hc.
  rewrite expected_out_row_cell; [done|]. apply list_elem_of_lookup. eauto.
Qed.

(** X12. The line of the output table for a record with an accession is
    its normalized accession followed, for AP_1, AP_2, AP_3, Lateral_1,
    Lateral_2 and Lateral_3 in that order, by the display name when the
    column holds a value for which some candidate file exists, and by the
    empty cell otherwise; the lines are in the order of the records. *)
Theorem output_line_content
    (args : CheckFiles.Args) (w : world) (df : DataFrame) (k : nat) (r : row) :
  ready args w df →
  with_accession (rows df) !! k = Some r →
  let base := Path.of_string (CheckFiles.base_dir args) in
  ∃ code w2 t,
    CheckFiles.main args w = (Return code, w2)
    ∧ files w2 !! Path.to_string (Path.of_string (CheckFiles.out_csv args))
      = Some (CsvFile t)
    ∧ records t !! k
      = Some (accession_of r
              :: (expected_cell w base r <$> CheckFiles.columns_to_check)).
Proof.
  intros Hready Hk base.
  destruct (main_writes args w df Hready) as (code & w2 & Hmain & Hfile & _).
  { intros Hnil. by rewrite Hnil in Hk. }
  eexists _, _, _. split; [exact Hmain|]. split; [exact Hfile|].
  rewrite select_records, !list_lookup_fmap, Hk. fold base.
  change (Some ((fun c => default "" (expected_out_row w base r !! c))
                <$> output_header)
          = Some (accession_of r
                  :: (expected_cell w base r <$> CheckFiles.columns_to_check))).
  by rewrite expected_out_row_line.
Qed.

Lemma output_line_content_witness :
  ∃ code w2 t,
    CheckFiles.main sample_args sample_world = (Return code, w2)
    ∧ files w2 !! "found_files.csv" = Some (CsvFile t)
    ∧ records t !! 0%nat = Some ["A1"; "IMG1.dcm"; ""; ""; "IMG2.DCM"; ""; ""].
Proof.
  destruct (output_line_content sample_args sample_world sample_images 0%nat
              (image_row (PyStr "A1") (PyStr "IMG1") (PyStr "IMG2.DCM"))
              ready_sample) as (code & w2 & t & Hmain & Hfile & Hline).
  - reflexivity.
  - exists code, w2, t. split; [exact Hmain|]. split; [exact Hfile|].
    rewrite Hline. vm_compute. reflexivity.
Defined.

Lemma filter_split_length {A : Type} (p q : A → bool) (l : list A) :
  (length (List.filter (fun x => p x && q x) l)
   + length (List.filter (fun x => negb (q x)) (List.filter p l))
   = length (List.filter p l))%nat.
Proof.
  induction l as [|x l IH]; [done|]. simpl.
  destruct (p x); simpl; [|done]. destruct (q x); simpl; lia.
Qed.

Lemma expected_cell_nonempty w base_dir r c :
  negb (Py.is_empty (expected_cell w base_dir r c))
  = negb (Py.is_empty (image_value r c))
    && cell_found w base_dir (accession_of r) (image_value r c).
Proof.
  unfold expected_cell. cbv zeta.
  destruct (negb (Py.is_empty (image_value r c))
            && cell_found w base_dir (accession_of r) (image_value r c));
    [|done].
  apply negb_true_iff, is_empty_false, display_name_nonempty.
Qed.

(** In the output row of a record the filled cells and the missing cells
    make up the checked cells. *)
Lemma found_cells_length w base_dir r :
  (length (List.filter
             (fun c => negb (Py.is_empty
                               (default "" (expected_out_row w base_dir r !! c))))
             CheckFiles.columns_to_check)
   + length (missing_cells w base_dir r)
   = length (checked_cells r))%nat.
Proof.
  rewrite (List.filter_ext_in _
             (fun c => negb (Py.is_empty (image_value r c))
                       && cell_found w base_dir (accession_of r)
                            (image_value r c))).
  - apply filter_split_length.
  - intros c Hc. rewrite expected_out_row_cell by by apply list_elem_of_In.
    apply expected_cell_nonempty.
Qed.

Lemma sum_list_cons (x : nat) (l : list nat) :
  sum_list (x :: l) = (x + sum_list l)%nat.
Proof. reflexivity. Qed.

Lemma found_count_total w base_dir rs :
  (CheckFiles.found_count (expected_out_row w base_dir <$> with_accession rs)
   + expected_missing w base_dir rs
   = expected_checked rs)%nat.
Proof.
  unfold CheckFiles.found_count, expected_missing, expected_checked.
  induction (with_accession rs) as [|r l IH]; [done|].
  rewrite !fmap_cons, !sum_list_cons.
  pose proof (found_cells_length w base_dir r). lia.
Qed.

(** X13. Whatever the dataset and the files, the loop of the validator
    returns, and at its end the number of filled cells of the collected
    rows (the count of found filenames that the summary reports) plus the
    error count is the checked count. *)
Theorem found_plus_missing_is_checked
    (base_dir : Path.t) (rs : list row) (w : world) :
  ∃ st w1,
    foldM (CheckFiles.check_row base_dir) (CheckFiles.mkLoop 0 0 [])
      (iterrows rs) w = (Return st, w1)
    ∧ (CheckFiles.found_count (CheckFiles.out_rows st)
       + CheckFiles.error_count st = CheckFiles.checked_count st)%nat
    ∧ files w1 = files w.
Proof.
  eexists _, _. split; [apply check_rows_exact|].
  rewrite rows_fold_spec.
  cbn [CheckFiles.error_count CheckFiles.checked_count CheckFiles.out_rows].
  rewrite !Nat.add_0_l, app_nil_l. split; [apply found_count_total|done].
Qed.

(** X14. A value is found exactly when the display path exists or the
    path of the value as given exists; the display path is always the
    first candidate tried and the value as given the last. So a cell can
    be filled with a display name whose own file is absent, when only the
    file without the extension exists. *)
Theorem found_by_display_or_given
    (w : world) (base_dir : Path.t) (accession value : string) :
  cell_found w base_dir accession value
  = path_exists w (CheckFiles.dcm_display_path base_dir accession value)
    || path_exists w (base_dir // accession // value)
  ∧ head (CheckFiles.candidate_paths base_dir accession value)
    = Some (CheckFiles.dcm_display_path base_dir accession value)
  ∧ last (CheckFiles.candidate_paths base_dir accession value)
    = Some (base_dir // accession // value)
  ∧ (path_exists w (CheckFiles.dcm_display_path base_dir accession value) = false →
     path_exists w (base_dir // accession // value) = true →
     ∀ r column st,
       image_value r column = value → value ≠ "" →
       CheckFiles.out_row
         (column_result w base_dir accession r st column) !! column
       = Some (display_name base_dir accession value)).
Proof.
  unfold cell_found, CheckFiles.candidate_paths, CheckFiles.dcm_display_path.
  cbv zeta. split; [|split; [|split]].
  - destruct (Py.endswith (Py.lower value) ".dcm"); simpl.
    + rewrite orb_false_r. by rewrite orb_diag.
    + by rewrite orb_false_r.
  - by destruct (Py.endswith (Py.lower value) ".dcm").
  - by destruct (Py.endswith (Py.lower value) ".dcm").
  - intros Hd Hg r column st Hv Hne.
    unfold column_result. cbv zeta. rewrite Hv.
    apply is_empty_false in Hne. rewrite Hne.
    assert (cell_found w base_dir accession value = true) as ->.
    { unfold cell_found, CheckFiles.candidate_paths. cbv zeta.
      destruct (Py.endswith (Py.lower value) ".dcm"); simpl;
        rewrite Hg; by rewrite ?orb_true_r. }
    simpl. by rewrite lookup_insert_eq.
Qed.

Lemma filter_length_mono {A : Type} (p q : A → bool) (l : list A) :
  (∀ x, p x = true → q x = true) →
  (length (List.filter p l) ≤ length (List.filter q l))%nat.
Proof.
  intros H. induction l as [|x l IH]; [done|]. simpl.
  destruct (p x) eqn:E.
  - rewrite (H x E). simpl. lia.
  - destruct (q x); simpl; lia.
Qed.

Lemma cell_found_mono w w' base_dir accession value :
  (∀ p, path_exists w p = true → path_exists w' p = true) →
  cell_found w base_dir accession value = true →
  cell_found w' base_dir accession value = true.
Proof.
  intros H. unfold cell_found. rewrite !existsb_exists.
  intros (p & Hp & Hex). exists p. split; [done|]. by apply H.
Qed.

Lemma expected_missing_mono w w' base_dir rs :
  (∀ p, path_exists w p = true → path_exists w' p = true) →
  (expected_missing w' base_dir rs ≤ expected_missing w base_dir rs)%nat.
Proof.
  intros H. unfold expected_missing.
  induction (with_accession rs) as [|r l IH]; [done|].
  rewrite !fmap_cons, !sum_list_cons.
  assert (length (missing_cells w' base_dir r)
          ≤ length (missing_cells w base_dir r))%nat; [|lia].
  apply filter_length_mono. intros c Hc.
  apply negb_true_iff in Hc. apply negb_true_iff.
  destruct (cell_found w base_dir (accession_of r) (image_value r c)) eqn:E;
    [|done].
  by rewrite (cell_found_mono w w' _ _ _ H E) in Hc.
Qed.

(** X15. Files that appear can only help: when every path that exists in
    one world exists in another, a run on the same dataset in the other
    world reports no more missing files and its exit status is no larger;
    in particular a run that succeeded still succeeds. *)
Theorem more_files_fewer_errors
    (args : CheckFiles.Args) (w w' : world) (df : DataFrame) :
  ready args w df →
  ready args w' df →
  (∀ p, path_exists w p = true → path_exists w' p = true) →
  let base := Path.of_string (CheckFiles.base_dir args) in
  ∃ code code' w2 w2',
    CheckFiles.main args w = (Return code, w2)
    ∧ CheckFiles.main args w' = (Return code', w2')
    ∧ (expected_missing w' base (rows df) ≤ expected_missing w base (rows df))%nat
    ∧ (code' ≤ code)%Z
    ∧ (code = 0%Z → code' = 0%Z).
Proof.
  intros Hready Hready' Hmore base. eexists _, _, _, _.
  split; [exact (main_world args w df Hready)|].
  split; [exact (main_world args w' df Hready')|].
  pose proof (expected_missing_mono w w' base (rows df) Hmore) as Hle.
  fold base. split; [done|].
  destruct (Nat.ltb_spec 0 (expected_missing w base (rows df)));
    destruct (Nat.ltb_spec 0 (expected_missing w' base (rows df)));
    split; (lia || done).
Qed.

Lemma ready_sample_complete :
  ready sample_args sample_world_complete sample_images.
Proof.
  split; [reflexivity|]. split; [reflexivity|]. apply ready_sample.
Defined.

Lemma more_files_fewer_errors_witness :
  ∃ code code' w2 w2',
    CheckFiles.main sample_args sample_world = (Return code, w2)
    ∧ CheckFiles.main sample_args sample_world_complete = (Return code', w2')
    ∧ (code' ≤ code)%Z.
Proof.
  destruct (more_files_fewer_errors sample_args sample_world
              sample_world_complete sample_images ready_sample
              ready_sample_complete)
    as (code & code' & w2 & w2' & H1 & H2 & _ & Hle & _).
  - intros p. unfold path_exists, sample_world_complete. cbn [files].
    intros H%bool_decide_eq_true. apply bool_decide_eq_true.
    destruct (decide ("base/3/scan.dcm" = Path.to_string p)) as [<-|Hne].
    + rewrite lookup_insert_eq. eauto.
    + by rewrite lookup_insert_ne.
  - exists code, code', w2, w2'. split; [exact H1|]. split; [exact H2|exact Hle].
Defined.

Example main_sample_complete :
  (CheckFiles.main sample_args sample_world_complete).1 = Return 0%Z.
Proof. vm_compute. reflexivity. Qed.

(** ** The key assigner: the accession column as key column *)

Lemma first_key_accession rs a :
  a ∈ accessions rs → first_key "Accession" a rs = Some a.
Proof.
  intros (Ha & r & Hr & Hacc)%elem_of_accessions.
  induction rs as [|r0 rs IH]; [by apply elem_of_nil in Hr|].
  simpl. apply is_empty_false in Ha as Ha'. rewrite Ha'. simpl.
  change (key_of "Accession" r0) with (accession_of r0).
  destruct (String.eqb_spec (accession_of r0) a) as [->|Hne]; simpl.
  - by rewrite Ha'.
  - apply elem_of_cons in Hr as [->|Hr]; [done|]. by apply IH.
Qed.

(** X16. When the key column is the accession column itself, the run
    draws no identifier: it replaces the accession cell of every record
    that has an accession by the normalized accession as text, and leaves
    the other records as they are. *)
Theorem accession_as_key_column
    (urandom : nat → N) (df : DataFrame) (i : nat) (r : row) :
  "Accession" ∈ columns df →
  rows df !! i = Some r →
  AddStudyKey.draws (AddStudyKey.run_passes urandom "Accession" df) = 0%nat
  ∧ rows (AddStudyKey.assign_keys urandom "Accession" df) !! i
    = Some (if Py.is_empty (accession_of r) then r
            else <["Accession" := PyStr (accession_of r)]> r).
Proof.
  intros Hcol Hi.
  assert (foldl (key_step urandom)
            (AddStudyKey.harvest "Accession" (rows df), 0%nat) (rows df)
          = (AddStudyKey.harvest "Accession" (rows df), 0%nat)) as Hfold.
  { apply key_fold_id. intros r' Hr' Ha. simpl.
    rewrite harvest_lookup, first_key_accession; [eauto|].
    apply elem_of_accessions. eauto. }
  split.
  - rewrite run_passes_eq, ensure_key_column_present by done.
    cbv zeta. cbn [AddStudyKey.draws]. by rewrite Hfold.
  - rewrite assign_keys_rows, ensure_key_column_present by done.
    rewrite Hfold, list_lookup_fmap, Hi. simpl. f_equal.
    unfold written. destruct (Py.is_empty (accession_of r)) eqn:E; [done|].
    apply is_empty_false in E.
    assert (AddStudyKey.harvest "Accession" (rows df) !! accession_of r
            = Some (accession_of r)) as Hlook.
    { rewrite harvest_lookup. apply first_key_accession.
      apply elem_of_accessions. split; [done|]. exists r.
      split; [|done]. apply list_elem_of_lookup. eauto. }
    by rewrite (lookup_total_correct _ _ _ Hlook).
Qed.

Lemma accession_as_key_column_witness :
  AddStudyKey.draws (AddStudyKey.run_passes zero_entropy "Accession" sample_keys)
  = 0%nat
  ∧ rows (AddStudyKey.assign_keys zero_entropy "Accession" sample_keys) !! 3%nat
    = Some (<["Accession" := PyStr "5"]> (key_row (PyInt 5) (PyFloat NaN))).
Proof.
  apply (accession_as_key_column zero_entropy sample_keys 3%nat
           (key_row (PyInt 5) (PyFloat NaN))).
  - unfold sample_keys. simpl. apply list_elem_of_here.
  - reflexivity.
Defined.

(** ** The two tools together *)









